(** * Access-control core of the dashboard: [services/auth_manager.py]
    over [services/database_manager.py] and [models/user.py].

    The development is a shallow embedding.  Python values are modelled as
    follows.

    - A [str] is the list of its Unicode code points ([N]).  Literals of the
      source are written [lit "..."].
    - The [users] table of the SQLite file is a list of rows in rowid order
      together with the AUTOINCREMENT counter; every [DatabaseManager] call
      opens its own connection, runs one statement and commits, so a call is
      a function from the table to the table and a result.
    - [bcrypt.hashpw] and [bcrypt.checkpw] are library primitives: they are
      section variables of the [AuthManager] section, and the salt drawn by
      [bcrypt.gensalt()] is an explicit argument of the operations that hash.
      Both may raise [ValueError]; [checkpw]'s is caught by the code,
      [hashpw]'s leaves the method that called it. *)

From Stdlib Require Import List NArith ZArith Bool String Ascii Lia.
From Stdlib Require Import Sorted Permutation.
Import ListNotations.

(* ================================================================== *)
(** * Python strings *)

Module PyStr.

Local Open Scope N_scope.

Definition str := list N.

(** A source literal, character by character. *)
Definition lit (s : string) : str :=
  map N_of_ascii (list_ascii_of_string s).

Fixpoint eqb (a b : str) : bool :=
  match a, b with
  | [], [] => true
  | x :: a', y :: b' => N.eqb x y && eqb a' b'
  | _, _ => false
  end.

(** Truthiness of a [str]: [not s] holds exactly for the empty string. *)
Definition is_empty (s : str) : bool :=
  match s with [] => true | _ :: _ => false end.

(** The code points [str.strip()] removes when called without argument
    ([str.isspace] on a single character). *)
Definition is_whitespace (c : N) : bool :=
  ((0x09 <=? c) && (c <=? 0x0D)) || ((0x1C <=? c) && (c <=? 0x20))
  || (c =? 0x85) || (c =? 0xA0) || (c =? 0x1680)
  || ((0x2000 <=? c) && (c <=? 0x200A))
  || (c =? 0x2028) || (c =? 0x2029) || (c =? 0x202F) || (c =? 0x205F)
  || (c =? 0x3000).

Fixpoint lstrip (s : str) : str :=
  match s with
  | [] => []
  | c :: s' => if is_whitespace c then lstrip s' else s
  end.

Definition rstrip (s : str) : str := rev (lstrip (rev s)).

Definition strip (s : str) : str := rstrip (lstrip s).

(** [s.split(sep)] for a one-character separator: the pieces between the
    occurrences of [sep], empty pieces included; never the empty list. *)
Fixpoint split_on (sep : N) (s : str) : list str :=
  match s with
  | [] => [[]]
  | c :: s' =>
      if N.eqb c sep then [] :: split_on sep s'
      else match split_on sep s' with
           | w :: ws => (c :: w) :: ws
           | [] => [[c]]   (* not reached: a split has a first piece *)
           end
  end.

(** [sep.join(parts)]. *)
Fixpoint join (sep : str) (parts : list str) : str :=
  match parts with
  | [] => []
  | [x] => x
  | x :: rest => x ++ sep ++ join sep rest
  end.

(** [x in l] for a list of strings. *)
Definition mem (x : str) (l : list str) : bool := existsb (eqb x) l.

(** [d.get(k, default)] for a dict given by its items. *)
Fixpoint dict_get (d : list (str * str)) (k default : str) : str :=
  match d with
  | [] => default
  | (k', v) :: d' => if eqb k' k then v else dict_get d' k default
  end.

(** Lexicographic order on code points: the order of SQLite's BINARY
    collation on the UTF-8 encodings. *)
Fixpoint leb (a b : str) : bool :=
  match a, b with
  | [], _ => true
  | _ :: _, [] => false
  | x :: a', y :: b' => (x <? y)%N || ((x =? y)%N && leb a' b')
  end.

Definition comma : N := 0x2C.

End PyStr.

(* ================================================================== *)
(** * models/user.py *)

Module Models.
Import PyStr.

(** An authenticated user: what [login_user] hands to the caller. *)
Record User := { username : str; roles : list str }.

Definition get_username (u : User) : str := username u.

Definition get_roles (u : User) : list str := roles u.

Definition get_primary_role (u : User) : str :=
  match roles u with
  | r :: _ => r
  | [] => lit "none"
  end.

End Models.

(* ================================================================== *)
(** * services/database_manager.py *)

Module DatabaseManager.
Import PyStr.

Local Open Scope Z_scope.

(** One row of
    [users(id INTEGER PRIMARY KEY AUTOINCREMENT, username TEXT UNIQUE NOT NULL,
           password_hash TEXT NOT NULL, role TEXT NOT NULL)]. *)
Record row := {
  id : Z;
  username : str;
  password_hash : str;
  role : str
}.

(** The table in rowid order, and the largest rowid it ever held (the
    [sqlite_sequence] entry AUTOINCREMENT maintains). *)
Record database := {
  users : list row;
  seq : Z
}.

(** The largest rowid SQLite can give, [2^63 - 1]. *)
Definition MAX_ROWID : Z := 9223372036854775807.

(** The statements [AuthManager] sends, with their bound parameters. *)
Inductive query :=
| SelectUserByUsername (u : str)   (* SELECT ... FROM users WHERE username = ? *)
| SelectUsersOrdered.              (* SELECT ... FROM users ORDER BY username *)

Inductive command :=
| InsertUser (u h r : str)         (* INSERT INTO users (username, password_hash, role) VALUES (?, ?, ?) *)
| UpdateRole (r u : str)           (* UPDATE users SET role = ? WHERE username = ? *)
| UpdatePasswordHash (h u : str)   (* UPDATE users SET password_hash = ? WHERE username = ? *)
| DeleteUser (u : str).            (* DELETE FROM users WHERE username = ? *)

(** [WHERE username = ?]: TEXT compared under the BINARY collation. *)
Definition has_username (u : str) (r : row) : bool := eqb (username r) u.

Definition set_role (r : row) (v : str) : row :=
  {| id := id r; username := username r;
     password_hash := password_hash r; role := v |}.

Definition set_password_hash (r : row) (v : str) : row :=
  {| id := id r; username := username r;
     password_hash := v; role := role r |}.

Fixpoint insert_by_username (r : row) (l : list row) : list row :=
  match l with
  | [] => [r]
  | x :: l' =>
      if leb (username r) (username x) then r :: l
      else x :: insert_by_username r l'
  end.

(** [ORDER BY username]. *)
Definition order_by_username (l : list row) : list row :=
  fold_right insert_by_username [] l.

Definition max_rowid (l : list row) : Z :=
  fold_right (fun r m => Z.max (id r) m) 0 l.

(** The rows a SELECT yields.  A result row carries every column; the
    callers read only the columns their statement selects. *)
Definition run_query (db : database) (q : query) : list row :=
  match q with
  | SelectUserByUsername u => filter (has_username u) (users db)
  | SelectUsersOrdered => order_by_username (users db)
  end.

(** One INSERT, UPDATE or DELETE on a fresh connection: the new table and
    the cursor's [lastrowid], or [None] when SQLite raises [sqlite3.Error].
    An INSERT fails with SQLITE_FULL once the table has held the largest
    rowid, and with a UNIQUE violation when the username is already present.
    An UPDATE or DELETE succeeds on however many rows match, and on a
    connection that has inserted nothing [lastrowid] is [0]. *)
Definition run_command (db : database) (c : command) : option (database * Z) :=
  match c with
  | InsertUser u h r =>
      if MAX_ROWID <=? Z.max (seq db) (max_rowid (users db)) then None
      else if existsb (has_username u) (users db) then None
      else
        let i := Z.max (seq db) (max_rowid (users db)) + 1 in
        Some ({| users := users db ++
                   [{| id := i; username := u; password_hash := h; role := r |}];
                 seq := i |}, i)
  | UpdateRole r u =>
      Some ({| users := map (fun x => if has_username u x then set_role x r else x)
                            (users db);
               seq := seq db |}, 0)
  | UpdatePasswordHash h u =>
      Some ({| users := map (fun x => if has_username u x
                                      then set_password_hash x h else x)
                            (users db);
               seq := seq db |}, 0)
  | DeleteUser u =>
      Some ({| users := filter (fun x => negb (has_username u x)) (users db);
               seq := seq db |}, 0)
  end.

(** [execute]: commit and return [cursor.lastrowid]; on [sqlite3.Error]
    print, change nothing and return [None]. *)
Definition execute (db : database) (c : command) : database * option Z :=
  match run_command db c with
  | Some (db', lastrowid) => (db', Some lastrowid)
  | None => (db, None)
  end.

(** [fetch_one]: the first row of the result, or [None]. *)
Definition fetch_one (db : database) (q : query) : option row :=
  match run_query db q with
  | r :: _ => Some r
  | [] => None
  end.

(** [fetch_all]: every row of the result. *)
Definition fetch_all (db : database) (q : query) : list row :=
  run_query db q.

(** AUTOINCREMENT still has a rowid to give to a new row. *)
Definition rowid_available (db : database) : Prop :=
  Z.max (seq db) (max_rowid (users db)) < MAX_ROWID.

(** The UNIQUE constraint on [username], as a property of the table. *)
Definition unique_usernames (db : database) : Prop :=
  NoDup (map username (users db)).

(** An account with username [u] exists. *)
Definition registered (u : str) (db : database) : Prop :=
  exists r, In r (users db) /\ username r = u.

(** How many accounts carry a given username. *)
Definition count_username (u : str) (db : database) : nat :=
  List.length (filter (has_username u) (users db)).

End DatabaseManager.

(* ================================================================== *)
(** * services/auth_manager.py *)

Module AuthManager.
Import PyStr.
Import DatabaseManager.

Definition DEFAULT_ROLE_SENTINEL : str := lit "none".

Definition VALID_ROLES : list str :=
  [lit "cybersec_eng"; lit "data_analyst"; lit "it_ops"; lit "admin"].

Definition ROLE_REMAP : list (str * str) :=
  [ (lit "cyber_analyst", lit "cybersec_eng");
    (lit "cyber", lit "cybersec_eng");
    (lit "data_scientist", lit "data_analyst") ].

(** How a call of a method that hashes ends: with the value it returns, or
    with the [ValueError] of [bcrypt.hashpw], which no method catches. *)
Inductive result (A : Type) : Type :=
| Returned (a : A)
| Raised.

Arguments Returned {A} a.
Arguments Raised {A}.

Definition _serialise_roles (roles : list str) : str :=
  let cleaned := filter (fun role => mem role VALID_ROLES) roles in
  match cleaned with
  | [] => DEFAULT_ROLE_SENTINEL
  | _ :: _ => join (lit ",") cleaned
  end.

Definition _parse_roles (raw_roles : str) : list str :=
  if is_empty raw_roles || eqb raw_roles DEFAULT_ROLE_SENTINEL then []
  else
    let cleaned :=
      map strip
          (filter (fun role => negb (is_empty (strip role)))
                  (split_on comma raw_roles)) in
    let mapped := map (fun role => dict_get ROLE_REMAP role role) cleaned in
    filter (fun role => mem role VALID_ROLES) mapped.

(** An entry of [get_all_users]: the selected columns plus the key
    ["roles"] the method adds. *)
Record account_entry := {
  entry_id : Z;
  entry_username : str;
  entry_role : str;
  entry_roles : list str
}.

Definition get_all_users (db : database) : list account_entry :=
  map (fun r => {| entry_id := id r; entry_username := username r;
                   entry_role := role r;
                   entry_roles := _parse_roles (role r) |})
      (fetch_all db SelectUsersOrdered).

Definition update_user_roles (db : database) (username : str)
    (roles : list str) : database * bool :=
  let serialised := _serialise_roles roles in
  let '(db', result) := execute db (UpdateRole serialised username) in
  (db', match result with Some _ => true | None => false end).

Definition delete_user (db : database) (username : str) : database * bool :=
  if eqb username (lit "admin") then (db, false)
  else
    let '(db', result) := execute db (DeleteUser username) in
    (db', match result with Some _ => true | None => false end).

Section Bcrypt.

(** [bcrypt.hashpw(password, salt)], with the result decoded to [str];
    [None] when it raises [ValueError] (bcrypt 5 refuses a password of more
    than 72 bytes). *)
Variable hashpw : str -> str -> option str.

(** [bcrypt.checkpw(password, hashed)]; [None] when it raises [ValueError]
    (a stored hash that is not a bcrypt hash). *)
Variable checkpw : str -> str -> option bool.

(** [salt] is the value of [bcrypt.gensalt()] at this call. *)
Definition _hash_password (password salt : str) : option str :=
  hashpw password salt.

Definition _verify_password (password password_hash : str) : bool :=
  match checkpw password password_hash with
  | Some b => b
  | None => false
  end.

Definition register_user (db : database) (username password salt : str)
    : database * result (bool * str) :=
  let username := strip username in
  if is_empty username || is_empty password then
    (db, Returned (false, lit "Username and password are required."))
  else
    match fetch_one db (SelectUserByUsername username) with
    | Some _ => (db, Returned (false, lit "Username already exists."))
    | None =>
        match _hash_password password salt with
        | None => (db, Raised)
        | Some password_hash =>
            let '(db', _) :=
              execute db
                (InsertUser username password_hash DEFAULT_ROLE_SENTINEL) in
            (db', Returned
                    (true,
                     lit "Registration successful. Ask an admin to assign roles."))
        end
    end.

(** [roles] is the argument after [roles or []]. *)
Definition create_user (db : database) (username password salt : str)
    (roles : list str) : database * result (bool * str) :=
  let username := strip username in
  if is_empty username || is_empty password then
    (db, Returned (false, lit "Username and password are required."))
  else
    match fetch_one db (SelectUserByUsername username) with
    | Some _ => (db, Returned (false, lit "Username already exists."))
    | None =>
        match _hash_password password salt with
        | None => (db, Raised)
        | Some password_hash =>
            let stored_roles := _serialise_roles roles in
            let '(db', _) :=
              execute db (InsertUser username password_hash stored_roles) in
            (db', Returned (true, lit "User created."))
        end
    end.

Definition login_user (db : database) (username password : str)
    : option Models.User :=
  let username := strip username in
  if is_empty username || is_empty password then None
  else
    match fetch_one db (SelectUserByUsername username) with
    | None => None
    | Some row =>
        if _verify_password password (DatabaseManager.password_hash row) then
          let roles := _parse_roles (role row) in
          Some {| Models.username := DatabaseManager.username row;
                  Models.roles := roles |}
        else None
    end.

Definition update_user_password (db : database) (username new_password salt : str)
    : database * result bool :=
  if is_empty new_password then (db, Returned false)
  else
    match _hash_password new_password salt with
    | None => (db, Raised)
    | Some new_hash =>
        let '(db', result) :=
          execute db (UpdatePasswordHash new_hash username) in
        (db', Returned (match result with Some _ => true | None => false end))
    end.

(** The method returns [None]; what matters is the table it leaves. *)
Definition ensure_admin_user (db : database) (salt : str)
    : database * result unit :=
  match fetch_one db (SelectUserByUsername (lit "admin")) with
  | Some _ => (db, Returned tt)
  | None =>
      match _hash_password (lit "admin") salt with
      | None => (db, Raised)
      | Some password_hash =>
          (fst (execute db
                  (InsertUser (lit "admin") password_hash (lit "admin"))),
           Returned tt)
      end
  end.

End Bcrypt.

End AuthManager.

(* ================================================================== *)
(** * A transparent stand-in for bcrypt

    Used to evaluate the operations on concrete tables: the hash is the salt,
    a dollar sign and the password; any other string is not a hash, and a
    password of more than 72 bytes is refused. *)

Module PlainHash.
Import PyStr.

Local Open Scope N_scope.

Definition dollar : N := 0x24.

(** [len(s.encode("utf-8"))]. *)
Definition utf8_length (s : str) : N :=
  fold_right
    (fun c n =>
       (if c <? 0x80 then 1
        else if c <? 0x800 then 2
        else if c <? 0x10000 then 3
        else 4) + n)
    0 s.

Definition digest (password salt : str) : str := salt ++ dollar :: password.

Definition hashpw (password salt : str) : option str :=
  if 72 <? utf8_length password then None
  else Some (digest password salt).

Definition checkpw (password hashed : str) : option bool :=
  match split_on dollar hashed with
  | [_; p] => Some (eqb password p)
  | _ => None
  end.

End PlainHash.

(* ================================================================== *)
(** * Sample tables *)

Module Samples.
Import PyStr DatabaseManager.

Definition empty_db : database := {| users := []; seq := 0 |}.

(** The table after ["alice"] registered with password ["secret123"]. *)
Definition alice_row : row :=
  {| id := 1; username := lit "alice";
     password_hash := PlainHash.digest (lit "secret123") (lit "salt");
     role := lit "none" |}.

Definition alice_db : database := {| users := [alice_row]; seq := 1 |}.

(** The bootstrap account as [ensure_admin_user] creates it. *)
Definition admin_row : row :=
  {| id := 2; username := lit "admin";
     password_hash := PlainHash.digest (lit "admin") (lit "salt");
     role := lit "admin" |}.

Definition staffed_db : database :=
  {| users := [alice_row; admin_row]; seq := 2 |}.

(** A table that has held the largest rowid. *)
Definition full_db : database := {| users := [alice_row]; seq := MAX_ROWID |}.

(** A password of 73 bytes. *)
Definition long_password : str := repeat 97%N 73.

End Samples.

(* ================================================================== *)
(** * The pages that consume the access-control core *)

(** The keys of [st.session_state] the pages share.  A key that is not set
    reads as the default its readers give it: [False], [""] and [[]]. *)
Module Session.
Import PyStr.

Record session_state := {
  logged_in : bool;
  username : str;
  roles : list str
}.

(** What a page guard does with the rest of the script: [st.switch_page]
    leaves the page, [st.error] followed by [st.stop()] halts it, a plain
    return lets it render. *)
Inductive outcome :=
| SwitchPage (page : str)
| Stop (error : str)
| Continue.

(** [set(a).intersection(b)], kept as a list: only its emptiness is read. *)
Definition intersection (a b : list str) : list str :=
  filter (fun x => mem x b) a.

Definition is_nil (l : list str) : bool :=
  match l with [] => true | _ :: _ => false end.

End Session.

(** ** pages/Login.py *)

Module Login.
Import PyStr DatabaseManager AuthManager Session.

Inductive feedback :=
| success (message : str)
| error (message : str).

(** [login_form] after the widgets are drawn: [submitted] is the state of
    the Login button, [username] and [password] the text inputs.  A [User]
    object is always truthy. *)
Definition login_form (checkpw : str -> str -> option bool)
    (db : database) (st : session_state)
    (submitted : bool) (username password : str)
    : session_state * option feedback :=
  if submitted then
    match login_user checkpw db username password with
    | Some user =>
        ({| logged_in := true;
            Session.username := Models.get_username user;
            roles := Models.get_roles user |},
         Some (success (lit "Login successful.")))
    | None => (st, Some (error (lit "Invalid username or password.")))
    end
  else (st, None).

End Login.

(** ** pages/2_Incident_Reporting.py *)

Module IncidentReporting.
Import PyStr Session.

Definition ALLOWED_ROLES : list str := [lit "cybersec_eng"; lit "admin"].

Definition guard_page (st : session_state) : outcome :=
  if negb (logged_in st) then SwitchPage (lit "pages/Login.py")
  else if mem (lit "admin") (roles st) then Continue
  else if negb (existsb (fun role => mem role ALLOWED_ROLES) (roles st)) then
    Stop (lit "You do not have access to the cybersecurity dashboard.")
  else Continue.

End IncidentReporting.

(** ** pages/3_Data_Analysis.py *)

Module DataAnalysis.
Import PyStr Session.

Definition ALLOWED_ROLES : list str := [lit "data_analyst"; lit "admin"].

Definition guard_page (st : session_state) : outcome :=
  if negb (logged_in st) then SwitchPage (lit "pages/Login.py")
  else if mem (lit "admin") (roles st) then Continue
  else if is_nil (intersection (roles st) ALLOWED_ROLES) then
    Stop (lit "You do not have access to this analytics view.")
  else Continue.

End DataAnalysis.

(** ** pages/4_IT_Ticketing_Dashboard.py *)

Module ITTicketing.
Import PyStr DatabaseManager AuthManager Session.

Definition ALLOWED_ROLES : list str := [lit "it_ops"; lit "admin"].

Definition guard_page (st : session_state) : outcome :=
  if negb (logged_in st) then SwitchPage (lit "pages/Login.py")
  else if mem (lit "admin") (roles st) then Continue
  else if negb (existsb (fun role => mem role ALLOWED_ROLES) (roles st)) then
    Stop (lit "You do not have access to the IT ticketing dashboard.")
  else Continue.

(** The usernames that hold the [it_ops] role, in directory order. *)
Definition get_technicians (db : database) : list str :=
  map entry_username
      (filter (fun row => mem (lit "it_ops") (entry_roles row))
              (get_all_users db)).

End ITTicketing.

(** ** pages/6_User_Management.py *)

Module UserManagement.
Import PyStr AuthManager Session.

Definition guard_page (st : session_state) : outcome :=
  if negb (logged_in st) then SwitchPage (lit "pages/Login.py")
  else if negb (mem (lit "admin") (roles st)) then
    Stop (lit "Only admin can view this page.")
  else Continue.

(** The [disabled] flag of a row's Delete button in [render_user_table]. *)
Definition disable_delete (row : account_entry) : bool :=
  eqb (entry_username row) (lit "admin").

End UserManagement.

(** ** pages/8_AI_Assistant.py *)

Module AIAssistant.
Import PyStr Session.

Definition ALLOWED_ROLES : list str :=
  [lit "cybersec_eng"; lit "data_analyst"; lit "it_ops"; lit "admin"].

Definition guard_page (st : session_state) : outcome :=
  if negb (logged_in st) then SwitchPage (lit "pages/Login.py")
  else if mem (lit "admin") (roles st) then Continue
  else if is_nil (intersection (roles st) ALLOWED_ROLES) then
    Stop (lit "You do not have access to the AI workspace.")
  else Continue.

End AIAssistant.

(** ** Dashboard.py *)

Module Dashboard.
Import PyStr Session.

(** A card of [CARDS]; the icon and the description are display text. *)
Record card := {
  label : str;
  page : str;
  card_roles : list str
}.

Definition CARDS : list card :=
  [ {| label := lit "Incident Reporting";
       page := lit "pages/2_Incident_Reporting.py";
       card_roles := [lit "cybersec_eng"; lit "admin"] |};
    {| label := lit "Data Analysis";
       page := lit "pages/3_Data_Analysis.py";
       card_roles := [lit "data_analyst"; lit "admin"] |};
    {| label := lit "IT Ticketing";
       page := lit "pages/4_IT_Ticketing_Dashboard.py";
       card_roles := [lit "it_ops"; lit "admin"] |};
    {| label := lit "User Management";
       page := lit "pages/6_User_Management.py";
       card_roles := [lit "admin"] |};
    {| label := lit "Settings";
       page := lit "pages/7_Settings.py";
       card_roles := [lit "admin"] |};
    {| label := lit "AI Workspace";
       page := lit "pages/8_AI_Assistant.py";
       card_roles := [lit "cybersec_eng"; lit "data_analyst"; lit "it_ops";
                      lit "admin"] |} ].

(** [allowed] of [render_cards]: the card's button is enabled. *)
Definition allowed (st : session_state) (c : card) : bool :=
  let is_admin := mem (lit "admin") (roles st) in
  is_nil (card_roles c) || is_admin
  || negb (is_nil (intersection (roles st) (card_roles c))).

End Dashboard.

(** ** Sample sessions *)

Module SampleSessions.
Import PyStr Session.

Definition admin_session : session_state :=
  {| logged_in := true; username := lit "admin"; roles := [lit "admin"] |}.

Definition analyst_session : session_state :=
  {| logged_in := true; username := lit "dana";
     roles := [lit "data_analyst"] |}.

Definition newcomer_session : session_state :=
  {| logged_in := true; username := lit "alice"; roles := [] |}.

Definition anonymous_session : session_state :=
  {| logged_in := false; username := lit ""; roles := [] |}.

End SampleSessions.

(* ================================================================== *)
(** * Facts about the string primitives *)

Module PyStrFacts.
Import PyStr.

Lemma eqb_eq (a b : str) : eqb a b = true <-> a = b.
Proof.
  revert b. induction a as [|x a IH]; intros [|y b]; simpl;
    try (split; [discriminate | congruence]).
  - split; reflexivity.
  - rewrite andb_true_iff, N.eqb_eq, IH. split.
    + intros [-> ->]. reflexivity.
    + intros E. inversion E. auto.
Qed.

Lemma eqb_refl (a : str) : eqb a a = true.
Proof. apply eqb_eq. reflexivity. Qed.

Lemma eqb_neq (a b : str) : eqb a b = false <-> a <> b.
Proof.
  rewrite <- eqb_eq. destruct (eqb a b); split; congruence.
Qed.

Lemma eqb_sym (a b : str) : eqb a b = eqb b a.
Proof.
  destruct (eqb a b) eqn:E.
  - apply eqb_eq in E. subst. symmetry. apply eqb_refl.
  - destruct (eqb b a) eqn:E'; [|reflexivity].
    apply eqb_eq in E'. subst. rewrite eqb_refl in E. discriminate.
Qed.

Lemma is_empty_nil (s : str) : is_empty s = true <-> s = [].
Proof. destruct s; simpl; split; congruence. Qed.

Lemma mem_In (x : str) (l : list str) : mem x l = true <-> In x l.
Proof.
  unfold mem. rewrite existsb_exists. split.
  - intros (y & Hy & E). apply eqb_eq in E. subst. assumption.
  - intros H. exists x. split; [assumption | apply eqb_refl].
Qed.

(** ** Splitting what [join] glued *)

Lemma split_on_no_sep (sep : N) (s : str) :
  ~ In sep s -> split_on sep s = [s].
Proof.
  induction s as [|c s IH]; simpl; intros H; [reflexivity|].
  destruct (N.eqb c sep) eqn:E.
  - apply N.eqb_eq in E. exfalso. apply H. left. assumption.
  - rewrite IH; [reflexivity|]. intros HIn. apply H. right. assumption.
Qed.

Lemma split_on_app (sep : N) (x rest : str) :
  ~ In sep x -> split_on sep (x ++ sep :: rest) = x :: split_on sep rest.
Proof.
  induction x as [|c x IH]; simpl; intros H.
  - rewrite N.eqb_refl. reflexivity.
  - destruct (N.eqb c sep) eqn:E.
    + apply N.eqb_eq in E. exfalso. apply H. left. assumption.
    + rewrite IH; [reflexivity|]. intros HIn. apply H. right. assumption.
Qed.

Lemma split_on_join (sep : N) (parts : list str) :
  parts <> [] ->
  Forall (fun p => ~ In sep p) parts ->
  split_on sep (join [sep] parts) = parts.
Proof.
  induction parts as [|x parts IH]; intros Hne Hall; [congruence|].
  inversion Hall as [|? ? Hx Hrest]; subst.
  destruct parts as [|y parts].
  - simpl. apply split_on_no_sep. assumption.
  - change (join [sep] (x :: y :: parts))
      with (x ++ sep :: join [sep] (y :: parts)).
    rewrite split_on_app by assumption.
    rewrite IH; [reflexivity | discriminate | assumption].
Qed.

End PyStrFacts.

(* ================================================================== *)
(** * Role serialisation *)

Module RoleCodec.
Import PyStr PyStrFacts.
Import AuthManager.

(** What the serialised form relies on: a valid role holds no comma, is
    left alone by [strip], is not empty and is not a legacy spelling. *)
Lemma valid_role_stable (r : str) :
  mem r VALID_ROLES = true ->
  ~ In comma r /\ strip r = r /\ is_empty (strip r) = false
  /\ dict_get ROLE_REMAP r r = r.
Proof.
  intros H. apply mem_In in H.
  destruct H as [H|[H|[H|[H|[]]]]]; subst r;
    (split; [ intros HIn; cbv in HIn; intuition discriminate
            | repeat split; reflexivity ]).
Qed.

Lemma filter_valid_all (roles : list str) :
  Forall (fun r => mem r VALID_ROLES = true)
         (filter (fun role => mem role VALID_ROLES) roles).
Proof.
  apply Forall_forall. intros r H. apply filter_In in H. apply H.
Qed.

(** The three passes of [_parse_roles] leave a list of valid roles as it is. *)
Lemma passes_fix_valid (l : list str) :
  Forall (fun r => mem r VALID_ROLES = true) l ->
  filter (fun role => mem role VALID_ROLES)
    (map (fun role => dict_get ROLE_REMAP role role)
       (map strip (filter (fun role => negb (is_empty (strip role))) l))) = l.
Proof.
  induction 1 as [|r l Hr _ IH]; [reflexivity|].
  destruct (valid_role_stable r Hr) as (_ & Hs & He & Hd).
  cbn [filter]. rewrite He. cbn [negb map filter].
  rewrite Hs, Hd, Hr, IH. reflexivity.
Qed.

Lemma parse_join_valid (cleaned : list str) :
  cleaned <> [] ->
  Forall (fun r => mem r VALID_ROLES = true) cleaned ->
  _parse_roles (join (lit ",") cleaned) = cleaned.
Proof.
  intros Hne Hall.
  assert (Hsplit : split_on comma (join (lit ",") cleaned) = cleaned).
  { apply (split_on_join comma cleaned Hne).
    apply Forall_forall. intros r Hr.
    rewrite Forall_forall in Hall.
    apply (valid_role_stable r (Hall r Hr)). }
  unfold _parse_roles.
  destruct (is_empty (join (lit ",") cleaned)) eqn:E1.
  - apply is_empty_nil in E1. rewrite E1 in Hsplit. simpl in Hsplit.
    subst cleaned. inversion Hall as [|? ? Hv _]. discriminate Hv.
  - destruct (eqb (join (lit ",") cleaned) DEFAULT_ROLE_SENTINEL) eqn:E2.
    + apply eqb_eq in E2. rewrite E2 in Hsplit.
      change (split_on comma DEFAULT_ROLE_SENTINEL) with [DEFAULT_ROLE_SENTINEL]
        in Hsplit.
      subst cleaned. inversion Hall as [|? ? Hv _]. discriminate Hv.
    + simpl. rewrite Hsplit. apply passes_fix_valid. assumption.
Qed.

Lemma parse_roles_valid (raw_roles : str) :
  Forall (fun r => In r VALID_ROLES) (_parse_roles raw_roles).
Proof.
  unfold _parse_roles.
  destruct (is_empty raw_roles || eqb raw_roles DEFAULT_ROLE_SENTINEL);
    [constructor|].
  apply Forall_forall. intros r H. apply filter_In in H.
  apply mem_In. apply H.
Qed.

(** C2.  For every role list, parsing its serialisation gives back the
    entries of the list that are in [VALID_ROLES]: the same entries in the
    same order, so in particular the same set; entries outside
    [VALID_ROLES] are dropped, and both functions are total. *)
Theorem parse_serialise_roles (roles : list str) :
  _parse_roles (_serialise_roles roles)
    = filter (fun role => mem role VALID_ROLES) roles
  /\ (forall r, In r (_parse_roles (_serialise_roles roles))
                <-> In r roles /\ In r VALID_ROLES).
Proof.
  assert (E : _parse_roles (_serialise_roles roles)
              = filter (fun role => mem role VALID_ROLES) roles).
  { unfold _serialise_roles.
    pose proof (filter_valid_all roles) as Hall.
    destruct (filter (fun role => mem role VALID_ROLES) roles) as [|x l] eqn:F.
    - reflexivity.
    - apply parse_join_valid; [discriminate | assumption]. }
  split; [exact E|].
  intros r. rewrite E, filter_In, mem_In. reflexivity.
Qed.

(** C8.  The empty role list is serialised as the sentinel ["none"], which
    is not the empty string, and the sentinel is parsed as the empty list. *)
Theorem empty_roles_sentinel :
  _serialise_roles [] = DEFAULT_ROLE_SENTINEL
  /\ DEFAULT_ROLE_SENTINEL = lit "none"
  /\ _serialise_roles [] <> []
  /\ _parse_roles DEFAULT_ROLE_SENTINEL = [].
Proof.
  repeat split; try reflexivity. discriminate.
Qed.

(** C9.  Every key [L] of [ROLE_REMAP], with value [R], is parsed as the
    one-element list [[R]]. *)
Theorem parse_legacy_alias (L R : str) :
  In (L, R) ROLE_REMAP -> _parse_roles L = [R].
Proof.
  intros [H|[H|[H|[]]]]; inversion H; subst; reflexivity.
Qed.

Lemma parse_legacy_alias_witness :
  In (lit "cyber", lit "cybersec_eng") ROLE_REMAP
  /\ _parse_roles (lit "cyber") = [lit "cybersec_eng"].
Proof.
  assert (H : In (lit "cyber", lit "cybersec_eng") ROLE_REMAP)
    by (right; left; reflexivity).
  split; [exact H | exact (parse_legacy_alias _ _ H)].
Defined.

End RoleCodec.

(* ================================================================== *)
(** * Facts about the table *)

Module DatabaseFacts.
Import PyStr PyStrFacts.
Import DatabaseManager.

Lemma has_username_true (u : str) (r : row) :
  has_username u r = true <-> username r = u.
Proof. unfold has_username. apply eqb_eq. Qed.

Lemma has_username_false (u : str) (r : row) :
  has_username u r = false <-> username r <> u.
Proof. unfold has_username. apply eqb_neq. Qed.

Lemma filter_absent (u : str) (l : list row) :
  (forall r, In r l -> username r <> u) -> filter (has_username u) l = [].
Proof.
  induction l as [|x l IH]; intros H; [reflexivity|].
  simpl. rewrite (proj2 (has_username_false u x)) by (apply H; left; reflexivity).
  apply IH. intros r Hr. apply H. right. assumption.
Qed.

Lemma not_registered_rows (u : str) (db : database) :
  ~ registered u db <-> (forall r, In r (users db) -> username r <> u).
Proof.
  unfold registered. split.
  - intros H r Hr E. apply H. exists r. split; assumption.
  - intros H (r & Hr & E). exact (H r Hr E).
Qed.

Lemma fetch_one_some (db : database) (u : str) (r : row) :
  fetch_one db (SelectUserByUsername u) = Some r ->
  In r (users db) /\ username r = u.
Proof.
  unfold fetch_one, run_query.
  destruct (filter (has_username u) (users db)) as [|x l] eqn:F; [discriminate|].
  intros E. inversion E; subst x.
  assert (H : In r (filter (has_username u) (users db)))
    by (rewrite F; left; reflexivity).
  apply filter_In in H. destruct H as [H1 H2].
  split; [assumption | apply has_username_true; assumption].
Qed.

Lemma fetch_one_none (db : database) (u : str) :
  fetch_one db (SelectUserByUsername u) = None <-> ~ registered u db.
Proof.
  rewrite not_registered_rows. unfold fetch_one, run_query. split.
  - destruct (filter (has_username u) (users db)) as [|x l] eqn:F; [|discriminate].
    intros _ r Hr E.
    assert (H : In r (filter (has_username u) (users db))).
    { apply filter_In. split; [assumption | apply has_username_true; assumption]. }
    rewrite F in H. destruct H.
  - intros H. rewrite filter_absent by assumption. reflexivity.
Qed.

Lemma fetch_one_registered (db : database) (u : str) :
  registered u db -> exists r, fetch_one db (SelectUserByUsername u) = Some r.
Proof.
  intros H. destruct (fetch_one db (SelectUserByUsername u)) as [r|] eqn:F.
  - exists r. reflexivity.
  - apply fetch_one_none in F. contradiction.
Qed.

Lemma existsb_absent (u : str) (db : database) :
  ~ registered u db -> existsb (has_username u) (users db) = false.
Proof.
  rewrite not_registered_rows. intros H.
  destruct (existsb (has_username u) (users db)) eqn:E; [|reflexivity].
  apply existsb_exists in E. destruct E as (r & Hr & E).
  apply has_username_true in E. exfalso. exact (H r Hr E).
Qed.

(** An UPDATE whose WHERE clause matches no row changes nothing. *)
Lemma update_absent (u : str) (f : row -> row) (l : list row) :
  (forall r, In r l -> username r <> u) ->
  map (fun x => if has_username u x then f x else x) l = l.
Proof.
  induction l as [|x l IH]; intros H; [reflexivity|].
  simpl. rewrite (proj2 (has_username_false u x)) by (apply H; left; reflexivity).
  f_equal. apply IH. intros r Hr. apply H. right. assumption.
Qed.

(** A DELETE whose WHERE clause matches no row changes nothing. *)
Lemma delete_absent (u : str) (l : list row) :
  (forall r, In r l -> username r <> u) ->
  filter (fun x => negb (has_username u x)) l = l.
Proof.
  induction l as [|x l IH]; intros H; [reflexivity|].
  simpl. rewrite (proj2 (has_username_false u x)) by (apply H; left; reflexivity).
  simpl. f_equal. apply IH. intros r Hr. apply H. right. assumption.
Qed.

Lemma delete_removes (u : str) (l : list row) (r : row) :
  In r (filter (fun x => negb (has_username u x)) l) -> username r <> u.
Proof.
  intros H. apply filter_In in H. destruct H as [_ H].
  apply has_username_false. apply negb_true_iff. assumption.
Qed.

Lemma database_eta (db : database) :
  {| users := users db; seq := seq db |} = db.
Proof. destruct db. reflexivity. Qed.

(** Under the UNIQUE constraint a username selects at most one row. *)
Lemma unique_filter_le_1 (u : str) (l : list row) :
  NoDup (map username l) ->
  (List.length (filter (has_username u) l) <= 1)%nat.
Proof.
  induction l as [|x l IH]; simpl; intros H; [lia|].
  inversion H as [|? ? Hx Hl]; subst.
  destruct (has_username u x) eqn:E.
  - apply has_username_true in E.
    rewrite filter_absent; [simpl; lia|].
    intros r Hr Er. apply Hx. rewrite E, <- Er. apply in_map. assumption.
  - apply IH. assumption.
Qed.

(** [ORDER BY] permutes the rows. *)
Lemma insert_by_username_In (r x : row) (l : list row) :
  In x (insert_by_username r l) <-> x = r \/ In x l.
Proof.
  induction l as [|y l IH]; simpl.
  - intuition congruence.
  - destruct (leb (username r) (username y)); simpl.
    + intuition congruence.
    + rewrite IH. intuition congruence.
Qed.

Lemma order_by_username_In (x : row) (l : list row) :
  In x (order_by_username l) <-> In x l.
Proof.
  induction l as [|y l IH]; simpl; [reflexivity|].
  rewrite insert_by_username_In, IH. intuition congruence.
Qed.

(** ** The UNIQUE constraint is kept by every statement *)

Lemma NoDup_snoc (A : Type) (l : list A) (x : A) :
  NoDup l -> ~ In x l -> NoDup (l ++ [x]).
Proof.
  induction 1 as [|y l Hy Hl IH]; simpl; intros Hx.
  - constructor; [intros [] | constructor].
  - constructor.
    + intros H. apply in_app_or in H. destruct H as [H|[H|[]]].
      * contradiction.
      * apply Hx. left. symmetry. assumption.
    + apply IH. intros H. apply Hx. right. assumption.
Qed.

Lemma usernames_update (u : str) (f : row -> row) (l : list row) :
  (forall r, username (f r) = username r) ->
  map username (map (fun x => if has_username u x then f x else x) l)
    = map username l.
Proof.
  intros Hf. induction l as [|x l IH]; [reflexivity|].
  simpl. rewrite IH. destruct (has_username u x); [rewrite Hf|]; reflexivity.
Qed.

Lemma usernames_filter_unique (p : row -> bool) (l : list row) :
  NoDup (map username l) -> NoDup (map username (filter p l)).
Proof.
  induction l as [|x l IH]; simpl; intros H; [constructor|].
  inversion H as [|? ? Hx Hl]; subst.
  destruct (p x); simpl; [|apply IH; assumption].
  constructor; [|apply IH; assumption].
  intros Hin. apply Hx. apply in_map_iff in Hin.
  destruct Hin as (r & Er & Hr). apply filter_In in Hr.
  rewrite <- Er. apply in_map. apply Hr.
Qed.

Lemma execute_keeps_unique (db : database) (c : command) :
  unique_usernames db -> unique_usernames (fst (execute db c)).
Proof.
  unfold unique_usernames, execute. intros H.
  destruct c as [u h r | r u | h u | u]; cbn [run_command].
  - destruct (MAX_ROWID <=? Z.max (seq db) (max_rowid (users db)))%Z;
      cbn [fst users]; [assumption|].
    destruct (existsb (has_username u) (users db)) eqn:E; cbn [fst users];
      [assumption|].
    rewrite map_app. cbn [map username]. apply NoDup_snoc; [assumption|].
    intros Hin. apply in_map_iff in Hin. destruct Hin as (x & Ex & Hx).
    assert (Ht : existsb (has_username u) (users db) = true).
    { apply existsb_exists. exists x.
      split; [assumption | apply has_username_true; assumption]. }
    congruence.
  - cbn [fst users]. rewrite usernames_update; [assumption | reflexivity].
  - cbn [fst users]. rewrite usernames_update; [assumption | reflexivity].
  - cbn [fst users]. apply usernames_filter_unique. assumption.
Qed.

(** ** Inserting a row *)

Lemma rowid_available_leb (db : database) :
  rowid_available db ->
  (MAX_ROWID <=? Z.max (seq db) (max_rowid (users db)))%Z = false.
Proof.
  unfold rowid_available. intros H. apply Z.leb_gt. exact H.
Qed.

(** An INSERT of a new username into a table with a rowid to give appends
    the row under the next rowid. *)
Lemma execute_insert_fresh (db : database) (u h r : str) :
  rowid_available db -> ~ registered u db ->
  execute db (InsertUser u h r)
    = ({| users := users db ++
            [{| id := Z.max (seq db) (max_rowid (users db)) + 1;
                username := u; password_hash := h; role := r |}];
          seq := Z.max (seq db) (max_rowid (users db)) + 1 |},
       Some (Z.max (seq db) (max_rowid (users db)) + 1)%Z).
Proof.
  intros Hfree Hfresh. unfold execute, run_command.
  rewrite (rowid_available_leb db Hfree), (existsb_absent u db Hfresh).
  reflexivity.
Qed.

(** Once the table has held the largest rowid, an INSERT fails and leaves
    the table as it is. *)
Lemma execute_insert_full (db : database) (u h r : str) :
  ~ rowid_available db -> execute db (InsertUser u h r) = (db, None).
Proof.
  unfold rowid_available. intros Hfull. unfold execute, run_command.
  rewrite (proj2 (Z.leb_le _ _)) by lia. reflexivity.
Qed.

End DatabaseFacts.

(* ================================================================== *)
(** * Registration, login and account administration *)

Module AccessControl.
Import PyStr PyStrFacts.
Import DatabaseManager DatabaseFacts.
Import AuthManager RoleCodec.

Section Bcrypt.

Variable hashpw : str -> str -> option str.
Variable checkpw : str -> str -> option bool.

Lemma required_fields (username password : str) :
  strip username = [] \/ password = [] <->
  is_empty (strip username) || is_empty password = true.
Proof.
  rewrite orb_true_iff, !is_empty_nil. reflexivity.
Qed.

(** C1.  [login_user] returns [None] when the trimmed username is empty,
    when the password is empty, when no account carries the trimmed
    username, and when the password does not verify against the stored hash
    of the accounts with that username.  When it returns a user, the fields
    were not empty and the user is built from a stored row with the trimmed
    username whose hash the password verifies against. *)
Theorem login_user_fails_closed (db : database) (username password : str) :
  (strip username = [] -> login_user checkpw db username password = None)
  /\ (password = [] -> login_user checkpw db username password = None)
  /\ (~ registered (strip username) db ->
      login_user checkpw db username password = None)
  /\ ((forall r, In r (users db) ->
                 DatabaseManager.username r = strip username ->
                 _verify_password checkpw password (password_hash r) = false) ->
      login_user checkpw db username password = None)
  /\ (forall user,
        login_user checkpw db username password = Some user ->
        strip username <> [] /\ password <> []
        /\ exists r, In r (users db)
             /\ DatabaseManager.username r = strip username
             /\ _verify_password checkpw password (password_hash r) = true
             /\ user = {| Models.username := DatabaseManager.username r;
                          Models.roles := _parse_roles (role r) |}).
Proof.
  unfold login_user.
  destruct (is_empty (strip username) || is_empty password) eqn:E.
  { repeat apply conj; intros; try reflexivity; discriminate. }
  assert (Hu : strip username <> []).
  { intros H. rewrite (proj1 (required_fields username password)) in E;
      [discriminate | left; assumption]. }
  assert (Hp : password <> []).
  { intros H. rewrite (proj1 (required_fields username password)) in E;
      [discriminate | right; assumption]. }
  destruct (fetch_one db (SelectUserByUsername (strip username))) as [row|] eqn:F.
  - destruct (fetch_one_some db _ _ F) as [Hin Hname].
    destruct (_verify_password checkpw password (password_hash row)) eqn:V.
    + repeat apply conj.
      * intros H. contradiction.
      * intros H. contradiction.
      * intros H. exfalso. apply H. exists row. split; assumption.
      * intros H. rewrite (H row Hin Hname) in V. discriminate.
      * intros user H. inversion H.
        split; [assumption|]. split; [assumption|].
        exists row. repeat split; assumption.
    + repeat apply conj; intros; try reflexivity; discriminate.
  - repeat apply conj; intros; try reflexivity; discriminate.
Qed.

(** C3, as the code has it.  [register_user] answers
    [(False, "Username and password are required.")] and leaves the table
    as it is whenever the trimmed username is empty or the password, taken
    as typed, is the empty string. *)
Theorem register_user_requires_fields
    (db : database) (username password salt : str) :
  strip username = [] \/ password = [] ->
  register_user hashpw db username password salt
    = (db, Returned (false, lit "Username and password are required.")).
Proof.
  intros H. apply required_fields in H.
  unfold register_user. rewrite H. reflexivity.
Qed.

(** C4, as the code has it.  On a username no account carries, the UPDATE
    and DELETE statements match no row and succeed, and the table is
    unchanged: [update_user_roles] returns [True]; [update_user_password]
    returns [False] on an empty new password, [True] on one bcrypt hashes,
    and lets the [ValueError] through on one bcrypt refuses; [delete_user]
    returns [True] unless the username is ["admin"]. *)
Theorem unknown_username_write_result (db : database) (username : str) :
  ~ registered username db ->
  (forall roles, update_user_roles db username roles = (db, true))
  /\ (forall new_password salt,
        update_user_password hashpw db username new_password salt
          = (db, if is_empty new_password then Returned false
                 else match hashpw new_password salt with
                      | Some _ => Returned true
                      | None => Raised
                      end))
  /\ delete_user db username = (db, negb (eqb username (lit "admin"))).
Proof.
  intros H0.
  pose proof (proj1 (not_registered_rows username db) H0) as H.
  repeat apply conj.
  - intros roles. unfold update_user_roles, execute, run_command.
    rewrite update_absent by assumption. rewrite database_eta. reflexivity.
  - intros new_password salt. unfold update_user_password, _hash_password.
    destruct (is_empty new_password); [reflexivity|].
    destruct (hashpw new_password salt) as [new_hash|]; [|reflexivity].
    unfold execute, run_command.
    rewrite update_absent by assumption. rewrite database_eta. reflexivity.
  - unfold delete_user.
    destruct (eqb username (lit "admin")); [reflexivity|].
    unfold execute, run_command.
    rewrite delete_absent by assumption. rewrite database_eta. reflexivity.
Qed.

(** C5.  [delete_user "admin"] returns [False] and leaves the table as it
    is.  For an existing account with another username, [delete_user]
    returns [True], and afterwards no row carries that username: the lookup
    by username finds nothing and the directory lists no such entry. *)
Theorem delete_user_spec (db : database) :
  delete_user db (lit "admin") = (db, false)
  /\ (forall u, u <> lit "admin" -> registered u db ->
        snd (delete_user db u) = true
        /\ ~ registered u (fst (delete_user db u))
        /\ fetch_one (fst (delete_user db u)) (SelectUserByUsername u) = None
        /\ (forall e, In e (get_all_users (fst (delete_user db u))) ->
                      entry_username e <> u)).
Proof.
  split; [reflexivity|].
  intros u Hu _.
  unfold delete_user. rewrite (proj2 (eqb_neq u (lit "admin")) Hu).
  unfold execute, run_command. cbn [fst snd].
  assert (Hgone : ~ registered u
            {| users := filter (fun x => negb (has_username u x)) (users db);
               seq := seq db |}).
  { apply not_registered_rows. cbn [users]. intros r Hr.
    exact (delete_removes u _ r Hr). }
  repeat apply conj.
  - reflexivity.
  - exact Hgone.
  - apply fetch_one_none. exact Hgone.
  - intros e He. unfold get_all_users, fetch_all, run_query in He.
    apply in_map_iff in He. destruct He as (r & <- & Hr).
    apply (proj1 (order_by_username_In r _)) in Hr. cbn [entry_username].
    intros E. apply Hgone. exists r. split; [exact Hr | exact E].
Qed.

(** C6.  On a table that satisfies the UNIQUE constraint and either holds
    an ["admin"] account or can take one (AUTOINCREMENT has a rowid left
    and bcrypt hashes the default password), two calls of
    [ensure_admin_user] in sequence leave exactly one account named
    ["admin"] and the second call changes nothing; a call on a table that
    already holds the account changes nothing. *)
Theorem ensure_admin_user_twice (db : database) (salt1 salt2 : str) :
  unique_usernames db ->
  registered (lit "admin") db
  \/ (rowid_available db /\ exists h, hashpw (lit "admin") salt1 = Some h) ->
  count_username (lit "admin")
    (fst (ensure_admin_user hashpw
            (fst (ensure_admin_user hashpw db salt1)) salt2)) = 1%nat
  /\ ensure_admin_user hashpw (fst (ensure_admin_user hashpw db salt1)) salt2
     = (fst (ensure_admin_user hashpw db salt1), Returned tt)
  /\ (registered (lit "admin") db ->
      forall salt, ensure_admin_user hashpw db salt = (db, Returned tt)).
Proof.
  intros Huniq Hcan.
  assert (Hkeep : forall d s, registered (lit "admin") d ->
                              ensure_admin_user hashpw d s = (d, Returned tt)).
  { intros d s H. unfold ensure_admin_user.
    destruct (fetch_one_registered _ _ H) as [r ->]. reflexivity. }
  assert (Hfirst : registered (lit "admin")
                     (fst (ensure_admin_user hashpw db salt1))
                   /\ count_username (lit "admin")
                        (fst (ensure_admin_user hashpw db salt1)) = 1%nat).
  { unfold ensure_admin_user.
    destruct (fetch_one db (SelectUserByUsername (lit "admin"))) as [r|] eqn:F.
    - destruct (fetch_one_some db _ _ F) as [Hin Hname]. cbn [fst]. split.
      + exists r. split; assumption.
      + unfold count_username.
        pose proof (unique_filter_le_1 (lit "admin") (users db) Huniq) as Hle.
        unfold fetch_one, run_query in F.
        destruct (filter (has_username (lit "admin")) (users db)) as [|x [|y l]];
          [discriminate | reflexivity | simpl in Hle; lia].
    - apply fetch_one_none in F.
      destruct Hcan as [Hreg | (Hfree & h & Hh)]; [contradiction|].
      unfold _hash_password. rewrite Hh.
      rewrite (execute_insert_fresh db _ _ _ Hfree F). cbn [fst]. split.
      + eexists. split; [cbn [users]; apply in_or_app; right; left; reflexivity|].
        reflexivity.
      + unfold count_username. cbn [users].
        rewrite filter_app.
        rewrite (filter_absent _ _ (proj1 (not_registered_rows _ _) F)).
        reflexivity. }
  destruct Hfirst as [Hreg Hcount].
  rewrite (Hkeep _ salt2 Hreg). cbn [fst].
  repeat split; [assumption | intros H salt; apply Hkeep; assumption].
Qed.

(** C7.  Registering a username no account carries yet, with a non-empty
    trimmed username and non-empty passwords, on a table where
    AUTOINCREMENT has a rowid left and with a first password bcrypt hashes:
    the first call succeeds and stores the account with the sentinel role;
    the second call with the same username answers
    [(False, "Username already exists.")] and leaves the table exactly as
    the first call left it. *)
Theorem register_user_twice
    (db : database) (username password1 password2 salt1 salt2 h : str) :
  strip username <> [] -> password1 <> [] -> password2 <> [] ->
  ~ registered (strip username) db ->
  rowid_available db ->
  hashpw password1 salt1 = Some h ->
  snd (register_user hashpw db username password1 salt1)
    = Returned
        (true, lit "Registration successful. Ask an admin to assign roles.")
  /\ (exists i,
        users (fst (register_user hashpw db username password1 salt1))
          = users db ++
            [{| id := i; DatabaseManager.username := strip username;
                password_hash := h;
                role := DEFAULT_ROLE_SENTINEL |}])
  /\ register_user hashpw
       (fst (register_user hashpw db username password1 salt1))
       username password2 salt2
     = (fst (register_user hashpw db username password1 salt1),
        Returned (false, lit "Username already exists.")).
Proof.
  intros Hu Hp1 Hp2 Hfresh Hfree Hh.
  assert (E1 : is_empty (strip username) || is_empty password1 = false).
  { destruct (strip username); [congruence|].
    destruct password1; [congruence | reflexivity]. }
  assert (E2 : is_empty (strip username) || is_empty password2 = false).
  { destruct (strip username); [congruence|].
    destruct password2; [congruence | reflexivity]. }
  assert (R : register_user hashpw db username password1 salt1
              = ({| users := users db ++
                      [{| id := Z.max (seq db) (max_rowid (users db)) + 1;
                          DatabaseManager.username := strip username;
                          password_hash := h;
                          role := DEFAULT_ROLE_SENTINEL |}];
                    seq := Z.max (seq db) (max_rowid (users db)) + 1 |},
                 Returned
                   (true,
                    lit "Registration successful. Ask an admin to assign roles."))).
  { unfold register_user, _hash_password. rewrite E1.
    rewrite (proj2 (fetch_one_none db (strip username)) Hfresh), Hh.
    rewrite (execute_insert_fresh db _ _ _ Hfree Hfresh). reflexivity. }
  rewrite R. cbn [fst snd users]. split; [reflexivity|]. split.
  - eexists. reflexivity.
  - unfold register_user. rewrite E2.
    match goal with
    | |- context [fetch_one ?d ?q] =>
        destruct (fetch_one_registered d (strip username)) as [r ->]
    end; [|reflexivity].
    eexists. split; [cbn [users]; apply in_or_app; right; left; reflexivity|].
    reflexivity.
Qed.

(** C10.  Whatever the [role] column holds, the roles of the user
    [login_user] returns and the roles of every entry of [get_all_users]
    are elements of [VALID_ROLES]. *)
Theorem delivered_roles_valid (db : database) :
  (forall username password user,
      login_user checkpw db username password = Some user ->
      Forall (fun r => In r VALID_ROLES) (Models.roles user))
  /\ (forall e, In e (get_all_users db) ->
                Forall (fun r => In r VALID_ROLES) (entry_roles e)).
Proof.
  split.
  - intros username password user H.
    unfold login_user in H.
    destruct (is_empty (strip username) || is_empty password); [discriminate|].
    destruct (fetch_one db (SelectUserByUsername (strip username)));
      [|discriminate].
    destruct (_verify_password checkpw password (password_hash r));
      [|discriminate].
    inversion H. cbn [Models.roles]. apply parse_roles_valid.
  - intros e He. unfold get_all_users in He.
    apply in_map_iff in He. destruct He as (r & <- & _).
    cbn [entry_roles]. apply parse_roles_valid.
Qed.

End Bcrypt.

(** ** The theorems at the sample tables *)

Import Samples.

Example login_alice :
  login_user PlainHash.checkpw alice_db (lit " alice ") (lit "secret123")
    = Some {| Models.username := lit "alice"; Models.roles := [] |}.
Proof. reflexivity. Qed.

(** The scenario of the specification: an admin grants ["data_analyst"] to
    ["alice"]; her password then logs her in with that role, a wrong
    password does not. *)
Example alice_granted_data_analyst :
  update_user_roles alice_db (lit "alice") [lit "data_analyst"]
    = ({| users := [set_role alice_row (lit "data_analyst")]; seq := 1 |}, true)
  /\ login_user PlainHash.checkpw
       (fst (update_user_roles alice_db (lit "alice") [lit "data_analyst"]))
       (lit "alice") (lit "secret123")
     = Some {| Models.username := lit "alice";
               Models.roles := [lit "data_analyst"] |}
  /\ login_user PlainHash.checkpw
       (fst (update_user_roles alice_db (lit "alice") [lit "data_analyst"]))
       (lit "alice") (lit "wrong")
     = None.
Proof. repeat split; reflexivity. Qed.

Lemma alice_db_lacks (u : str) :
  eqb (lit "alice") u = false -> ~ registered u alice_db.
Proof.
  intros E (r & [Hr|[]] & Hu). subst r. cbn [username alice_row] in Hu.
  rewrite <- Hu, eqb_refl in E. discriminate.
Qed.

Lemma login_user_fails_closed_witness :
  login_user PlainHash.checkpw alice_db (lit "   ") (lit "secret123") = None
  /\ login_user PlainHash.checkpw alice_db (lit "alice") [] = None
  /\ login_user PlainHash.checkpw alice_db (lit "ghost") (lit "secret123") = None
  /\ login_user PlainHash.checkpw alice_db (lit "alice") (lit "wrong") = None.
Proof.
  repeat apply conj.
  - destruct (login_user_fails_closed PlainHash.checkpw alice_db
                (lit "   ") (lit "secret123")) as (H & _).
    apply H. reflexivity.
  - destruct (login_user_fails_closed PlainHash.checkpw alice_db
                (lit "alice") []) as (_ & H & _).
    apply H. reflexivity.
  - destruct (login_user_fails_closed PlainHash.checkpw alice_db
                (lit "ghost") (lit "secret123")) as (_ & _ & H & _).
    apply H. apply alice_db_lacks. reflexivity.
  - destruct (login_user_fails_closed PlainHash.checkpw alice_db
                (lit "alice") (lit "wrong")) as (_ & _ & _ & H & _).
    apply H. intros r [<-|[]] _. reflexivity.
Defined.

(** C3 as stated fails: a password of three spaces is empty after
    trimming, yet [register_user] accepts it and stores the account. *)
Lemma register_user_blank_password :
  strip (lit "   ") = []
  /\ register_user PlainHash.hashpw empty_db (lit "bob") (lit "   ") (lit "salt")
     = ({| users := [{| id := 1; username := lit "bob";
                        password_hash :=
                          PlainHash.digest (lit "   ") (lit "salt");
                        role := lit "none" |}];
           seq := 1 |},
        Returned
          (true, lit "Registration successful. Ask an admin to assign roles.")).
Proof. split; reflexivity. Qed.

Lemma register_user_requires_fields_witness :
  (strip (lit "  ") = [] \/ lit "secret123" = [])
  /\ register_user PlainHash.hashpw alice_db (lit "  ") (lit "secret123")
       (lit "salt")
     = (alice_db, Returned (false, lit "Username and password are required.")).
Proof.
  assert (H : strip (lit "  ") = [] \/ lit "secret123" = [])
    by (left; reflexivity).
  split; [exact H|].
  exact (register_user_requires_fields PlainHash.hashpw alice_db
           (lit "  ") (lit "secret123") (lit "salt") H).
Defined.

(** C4 as stated fails: no account is named ["ghost"], yet the three
    operations return [True]. *)
Lemma unknown_username_reports_success :
  ~ registered (lit "ghost") alice_db
  /\ update_user_roles alice_db (lit "ghost") [lit "it_ops"] = (alice_db, true)
  /\ update_user_password PlainHash.hashpw alice_db (lit "ghost")
       (lit "changeme") (lit "salt") = (alice_db, Returned true)
  /\ delete_user alice_db (lit "ghost") = (alice_db, true).
Proof.
  split; [apply alice_db_lacks; reflexivity|].
  repeat split; reflexivity.
Qed.

Lemma unknown_username_write_result_witness :
  ~ registered (lit "ghost") alice_db
  /\ update_user_roles alice_db (lit "ghost") [lit "admin"] = (alice_db, true)
  /\ update_user_password PlainHash.hashpw alice_db (lit "ghost") []
       (lit "salt") = (alice_db, Returned false)
  /\ update_user_password PlainHash.hashpw alice_db (lit "ghost")
       (lit "changeme") (lit "salt") = (alice_db, Returned true)
  /\ update_user_password PlainHash.hashpw alice_db (lit "ghost")
       long_password (lit "salt") = (alice_db, Raised)
  /\ delete_user alice_db (lit "ghost") = (alice_db, true).
Proof.
  assert (H : ~ registered (lit "ghost") alice_db)
    by (apply alice_db_lacks; reflexivity).
  destruct (unknown_username_write_result PlainHash.hashpw alice_db
              (lit "ghost") H) as (H1 & H2 & H3).
  split; [exact H|]. split; [apply H1|].
  split; [apply H2|]. split; [apply H2|]. split; [apply H2 | exact H3].
Defined.

Lemma delete_user_spec_witness :
  lit "alice" <> lit "admin"
  /\ registered (lit "alice") staffed_db
  /\ snd (delete_user staffed_db (lit "alice")) = true
  /\ fetch_one (fst (delete_user staffed_db (lit "alice")))
       (SelectUserByUsername (lit "alice")) = None
  /\ delete_user staffed_db (lit "admin") = (staffed_db, false).
Proof.
  assert (Hne : lit "alice" <> lit "admin") by discriminate.
  assert (Hreg : registered (lit "alice") staffed_db).
  { exists alice_row. split; [left; reflexivity | reflexivity]. }
  destruct (delete_user_spec staffed_db) as [Hadmin Hother].
  destruct (Hother (lit "alice") Hne Hreg) as (H1 & _ & H3 & _).
  repeat apply conj; assumption.
Defined.

Lemma alice_db_unique : unique_usernames alice_db.
Proof.
  unfold unique_usernames. cbn [users alice_db map].
  constructor; [intros [] | constructor].
Qed.

Lemma alice_db_rowid : rowid_available alice_db.
Proof. reflexivity. Qed.

(** On a table that has held the largest rowid the INSERT fails, and
    [register_user], which does not read the result of [execute], still
    answers [True]: nothing is stored.  On a password bcrypt refuses the
    [ValueError] leaves [register_user]. *)
Example register_user_unstored :
  register_user PlainHash.hashpw full_db (lit "bob") (lit "pw1") (lit "salt")
    = (full_db,
       Returned
         (true, lit "Registration successful. Ask an admin to assign roles."))
  /\ register_user PlainHash.hashpw alice_db (lit "bob") long_password
       (lit "salt")
     = (alice_db, Raised).
Proof. split; reflexivity. Qed.

(** The same table takes no ["admin"] account either: both calls of
    [ensure_admin_user] return and the table still has none. *)
Example ensure_admin_user_unstored :
  ensure_admin_user PlainHash.hashpw full_db (lit "salt")
    = (full_db, Returned tt)
  /\ count_username (lit "admin")
       (fst (ensure_admin_user PlainHash.hashpw
               (fst (ensure_admin_user PlainHash.hashpw full_db (lit "salt")))
               (lit "pepper"))) = 0%nat.
Proof. split; reflexivity. Qed.

Lemma ensure_admin_user_twice_witness :
  unique_usernames alice_db
  /\ rowid_available alice_db
  /\ PlainHash.hashpw (lit "admin") (lit "salt")
     = Some (PlainHash.digest (lit "admin") (lit "salt"))
  /\ count_username (lit "admin")
       (fst (ensure_admin_user PlainHash.hashpw
               (fst (ensure_admin_user PlainHash.hashpw alice_db (lit "salt")))
               (lit "pepper"))) = 1%nat.
Proof.
  assert (Hcan : registered (lit "admin") alice_db
                 \/ (rowid_available alice_db
                     /\ exists h, PlainHash.hashpw (lit "admin") (lit "salt")
                                  = Some h)).
  { right. split; [exact alice_db_rowid|]. eexists. reflexivity. }
  split; [exact alice_db_unique|]. split; [exact alice_db_rowid|].
  split; [reflexivity|].
  apply (ensure_admin_user_twice PlainHash.hashpw alice_db
           (lit "salt") (lit "pepper") alice_db_unique Hcan).
Defined.

Lemma register_user_twice_witness :
  rowid_available alice_db
  /\ PlainHash.hashpw (lit "pw1") (lit "salt")
     = Some (PlainHash.digest (lit "pw1") (lit "salt"))
  /\ snd (register_user PlainHash.hashpw alice_db (lit "bob") (lit "pw1")
            (lit "salt"))
     = Returned
         (true, lit "Registration successful. Ask an admin to assign roles.")
  /\ register_user PlainHash.hashpw
       (fst (register_user PlainHash.hashpw alice_db (lit "bob") (lit "pw1")
               (lit "salt")))
       (lit "bob") (lit "pw2") (lit "pepper")
     = (fst (register_user PlainHash.hashpw alice_db (lit "bob") (lit "pw1")
               (lit "salt")),
        Returned (false, lit "Username already exists.")).
Proof.
  assert (Hu : strip (lit "bob") <> []) by discriminate.
  assert (Hp1 : lit "pw1" <> []) by discriminate.
  assert (Hp2 : lit "pw2" <> []) by discriminate.
  assert (Hfresh : ~ registered (strip (lit "bob")) alice_db)
    by (apply alice_db_lacks; reflexivity).
  assert (Hh : PlainHash.hashpw (lit "pw1") (lit "salt")
               = Some (PlainHash.digest (lit "pw1") (lit "salt")))
    by reflexivity.
  destruct (register_user_twice PlainHash.hashpw alice_db (lit "bob")
              (lit "pw1") (lit "pw2") (lit "salt") (lit "pepper") _
              Hu Hp1 Hp2 Hfresh alice_db_rowid Hh) as (H1 & _ & H3).
  split; [exact alice_db_rowid|]. split; [exact Hh|]. split; assumption.
Defined.

Lemma delivered_roles_valid_witness :
  Forall (fun r => In r VALID_ROLES)
         (_parse_roles (lit "cyber, root ,admin,,it_ops"))
  /\ (forall e, In e (get_all_users staffed_db) ->
                Forall (fun r => In r VALID_ROLES) (entry_roles e)).
Proof.
  split.
  - apply parse_roles_valid.
  - apply (delivered_roles_valid PlainHash.checkpw staffed_db).
Defined.

End AccessControl.

(* ================================================================== *)
(** * How the account operations compose *)

Module AccountLifecycle.
Import PyStr PyStrFacts.
Import DatabaseManager DatabaseFacts.
Import AuthManager RoleCodec.

(** ** Role strings in normal form *)

Lemma parse_serialise_filter (roles : list str) :
  _parse_roles (_serialise_roles roles)
    = filter (fun role => mem role VALID_ROLES) roles.
Proof.
  unfold _serialise_roles.
  pose proof (filter_valid_all roles) as Hall.
  destruct (filter (fun role => mem role VALID_ROLES) roles) as [|x l] eqn:F.
  - reflexivity.
  - apply parse_join_valid; [discriminate | assumption].
Qed.

Lemma filter_twice (A : Type) (p : A -> bool) (l : list A) :
  filter p (filter p l) = filter p l.
Proof.
  induction l as [|x l IH]; [reflexivity|].
  simpl. destruct (p x) eqn:E; simpl; [rewrite E, IH|]; auto.
Qed.

Lemma filter_all_true (A : Type) (p : A -> bool) (l : list A) :
  Forall (fun x => p x = true) l -> filter p l = l.
Proof.
  induction 1 as [|x l Hx _ IH]; [reflexivity|].
  simpl. rewrite Hx, IH. reflexivity.
Qed.

Lemma parse_roles_mem (raw_roles : str) :
  Forall (fun r => mem r VALID_ROLES = true) (_parse_roles raw_roles).
Proof.
  eapply Forall_impl; [|apply parse_roles_valid].
  intros r H. apply mem_In. assumption.
Qed.

(** X9.  The stored role string is never empty; serialising what was
    parsed from a serialised list gives the same string again; and parsing,
    serialising and parsing again gives the roles of the first parse, so a
    legacy string that is written back reads as before. *)
Theorem role_string_normal_form :
  (forall roles, _serialise_roles roles <> [])
  /\ (forall roles,
        _serialise_roles (_parse_roles (_serialise_roles roles))
          = _serialise_roles roles)
  /\ (forall raw_roles,
        _parse_roles (_serialise_roles (_parse_roles raw_roles))
          = _parse_roles raw_roles).
Proof.
  repeat apply conj.
  - intros roles. unfold _serialise_roles.
    pose proof (filter_valid_all roles) as Hall.
    destruct (filter (fun role => mem role VALID_ROLES) roles) as [|x l];
      [discriminate|].
    inversion Hall as [|? ? Hx _]; subst.
    destruct (valid_role_stable x Hx) as (_ & Hs & He & _).
    rewrite Hs in He.
    destruct x as [|c x]; [discriminate He|].
    destruct l; discriminate.
  - intros roles. rewrite parse_serialise_filter.
    unfold _serialise_roles. rewrite filter_twice. reflexivity.
  - intros raw_roles. rewrite parse_serialise_filter.
    apply filter_all_true. apply parse_roles_mem.
Qed.

(** ** Lookups after a statement *)

Lemma filter_username_map (u : str) (g : row -> row) (l : list row) :
  (forall r, username (g r) = username r) ->
  filter (has_username u) (map g l) = map g (filter (has_username u) l).
Proof.
  intros Hg. induction l as [|x l IH]; [reflexivity|].
  assert (E : has_username u (g x) = has_username u x)
    by (unfold has_username; rewrite Hg; reflexivity).
  simpl. rewrite E, IH.
  destruct (has_username u x); reflexivity.
Qed.

Lemma fetch_one_map (u : str) (g : row -> row) (db : database) (n : Z) :
  (forall r, username (g r) = username r) ->
  fetch_one {| users := map g (users db); seq := n |} (SelectUserByUsername u)
    = option_map g (fetch_one db (SelectUserByUsername u)).
Proof.
  intros Hg. unfold fetch_one, run_query. cbn [users].
  rewrite filter_username_map by assumption.
  destruct (filter (has_username u) (users db)); reflexivity.
Qed.

Lemma fetch_one_append_other (u : str) (db : database) (x : row) (n : Z) :
  username x <> u ->
  fetch_one {| users := users db ++ [x]; seq := n |} (SelectUserByUsername u)
    = fetch_one db (SelectUserByUsername u).
Proof.
  intros H. unfold fetch_one, run_query. cbn [users].
  rewrite filter_app. cbn [filter].
  rewrite (proj2 (has_username_false u x) H), app_nil_r. reflexivity.
Qed.

Lemma fetch_one_append_fresh (db : database) (x : row) (n : Z) :
  ~ registered (username x) db ->
  fetch_one {| users := users db ++ [x]; seq := n |}
            (SelectUserByUsername (username x)) = Some x.
Proof.
  intros H. unfold fetch_one, run_query. cbn [users].
  rewrite filter_app.
  rewrite (filter_absent _ _ (proj1 (not_registered_rows _ _) H)).
  cbn [filter app].
  rewrite (proj2 (has_username_true (username x) x) eq_refl). reflexivity.
Qed.

Lemma fetch_one_delete (u v : str) (db : database) (n : Z) :
  fetch_one {| users := filter (fun x => negb (has_username u x)) (users db);
               seq := n |}
            (SelectUserByUsername v)
    = if eqb v u then None else fetch_one db (SelectUserByUsername v).
Proof.
  unfold fetch_one, run_query. cbn [users].
  destruct (eqb v u) eqn:E.
  - apply eqb_eq in E. subst v.
    rewrite filter_absent; [reflexivity|].
    intros r Hr. exact (delete_removes u (users db) r Hr).
  - apply eqb_neq in E.
    assert (F : forall l, filter (has_username v)
                  (filter (fun x => negb (has_username u x)) l)
                = filter (has_username v) l).
    { induction l as [|x l IH]; [reflexivity|].
      simpl. destruct (has_username u x) eqn:Hu; simpl.
      - apply has_username_true in Hu.
        rewrite (proj2 (has_username_false v x)) by congruence. exact IH.
      - rewrite IH. reflexivity. }
    rewrite F. reflexivity.
Qed.

Lemma nonempty_fields (username password : str) :
  strip username <> [] -> password <> [] ->
  is_empty (strip username) || is_empty password = false.
Proof.
  intros Hu Hp. destruct (strip username); [congruence|].
  destruct password; [congruence | reflexivity].
Qed.

Section Bcrypt.

Variable hashpw : str -> str -> option str.
Variable checkpw : str -> str -> option bool.

(** [login_user] reads the table only through the lookup of the trimmed
    username. *)
Lemma login_user_lookup (db1 db2 : database) (name password : str) :
  fetch_one db1 (SelectUserByUsername (strip name))
    = fetch_one db2 (SelectUserByUsername (strip name)) ->
  login_user checkpw db1 name password = login_user checkpw db2 name password.
Proof.
  intros H. unfold login_user. rewrite H. reflexivity.
Qed.

(** Logging in on a table to which one account of a new username was
    appended. *)
Lemma login_after_insert (db : database) (x : row) (n : Z)
    (name password : str) :
  ~ registered (username x) db ->
  login_user checkpw {| users := users db ++ [x]; seq := n |} name password
    = if eqb (strip name) (username x) then
        if is_empty (strip name) || is_empty password then None
        else if _verify_password checkpw password (password_hash x) then
          Some {| Models.username := username x;
                  Models.roles := _parse_roles (role x) |}
        else None
      else login_user checkpw db name password.
Proof.
  intros Hfresh. destruct (eqb (strip name) (username x)) eqn:E.
  - apply eqb_eq in E. unfold login_user. rewrite E.
    rewrite (fetch_one_append_fresh db x n Hfresh). reflexivity.
  - apply eqb_neq in E. apply login_user_lookup.
    apply fetch_one_append_other. congruence.
Qed.

Lemma register_user_fresh (db : database) (username password salt h : str) :
  strip username <> [] -> password <> [] ->
  ~ registered (strip username) db ->
  rowid_available db ->
  hashpw password salt = Some h ->
  register_user hashpw db username password salt
    = ({| users := users db ++
            [{| id := Z.max (seq db) (max_rowid (users db)) + 1;
                DatabaseManager.username := strip username;
                password_hash := h;
                role := DEFAULT_ROLE_SENTINEL |}];
          seq := Z.max (seq db) (max_rowid (users db)) + 1 |},
       Returned
         (true, lit "Registration successful. Ask an admin to assign roles.")).
Proof.
  intros Hu Hp Hfresh Hfree Hh. unfold register_user, _hash_password.
  rewrite (nonempty_fields _ _ Hu Hp).
  rewrite (proj2 (fetch_one_none db (strip username)) Hfresh), Hh.
  rewrite (execute_insert_fresh db _ _ _ Hfree Hfresh). reflexivity.
Qed.

Lemma create_user_fresh (db : database) (username password salt h : str)
    (roles : list str) :
  strip username <> [] -> password <> [] ->
  ~ registered (strip username) db ->
  rowid_available db ->
  hashpw password salt = Some h ->
  create_user hashpw db username password salt roles
    = ({| users := users db ++
            [{| id := Z.max (seq db) (max_rowid (users db)) + 1;
                DatabaseManager.username := strip username;
                password_hash := h;
                role := _serialise_roles roles |}];
          seq := Z.max (seq db) (max_rowid (users db)) + 1 |},
       Returned (true, lit "User created.")).
Proof.
  intros Hu Hp Hfresh Hfree Hh. unfold create_user, _hash_password.
  rewrite (nonempty_fields _ _ Hu Hp).
  rewrite (proj2 (fetch_one_none db (strip username)) Hfresh), Hh.
  rewrite (execute_insert_fresh db _ _ _ Hfree Hfresh). reflexivity.
Qed.

(** X1.  [create_user] answers [(False, "Username and password are
    required.")] when the trimmed username or the password is empty.  With
    both present, a username that is taken after trimming makes
    [register_user] and [create_user] answer
    [(False, "Username already exists.")].  The table is unchanged in every
    one of these cases. *)
Theorem taken_or_missing_rejected
    (db : database) (username password salt : str) (roles : list str) :
  (strip username = [] \/ password = [] ->
   create_user hashpw db username password salt roles
     = (db, Returned (false, lit "Username and password are required.")))
  /\ (strip username <> [] -> password <> [] ->
      registered (strip username) db ->
      register_user hashpw db username password salt
        = (db, Returned (false, lit "Username already exists."))
      /\ create_user hashpw db username password salt roles
        = (db, Returned (false, lit "Username already exists."))).
Proof.
  split.
  - intros H. unfold create_user.
    assert (E : is_empty (strip username) || is_empty password = true).
    { apply orb_true_iff. rewrite !is_empty_nil. assumption. }
    rewrite E. reflexivity.
  - intros Hu Hp Hreg.
    destruct (fetch_one_registered _ _ Hreg) as [r F].
    unfold register_user, create_user.
    rewrite (nonempty_fields _ _ Hu Hp), F. split; reflexivity.
Qed.

(** X2.  [create_user] on a new username with both fields present, on a
    table where AUTOINCREMENT has a rowid left and with a password bcrypt
    hashes, answers [(True, "User created.")]; the directory then lists the
    account with the serialised roles, read back as the entries of [roles]
    that are in [VALID_ROLES]; the password just set, when bcrypt verifies
    it against that hash, logs the account in with those roles; every other
    username logs in as before. *)
Theorem create_user_round_trip
    (db : database) (username password salt h : str) (roles : list str) :
  strip username <> [] -> password <> [] ->
  ~ registered (strip username) db ->
  rowid_available db ->
  hashpw password salt = Some h ->
  snd (create_user hashpw db username password salt roles)
    = Returned (true, lit "User created.")
  /\ (exists e,
        In e (get_all_users
                (fst (create_user hashpw db username password salt roles)))
        /\ entry_username e = strip username
        /\ entry_role e = _serialise_roles roles
        /\ entry_roles e = filter (fun role => mem role VALID_ROLES) roles)
  /\ (checkpw password h = Some true ->
      login_user checkpw
        (fst (create_user hashpw db username password salt roles))
        username password
      = Some {| Models.username := strip username;
                Models.roles := filter (fun role => mem role VALID_ROLES) roles |})
  /\ (forall name p,
        strip name <> strip username ->
        login_user checkpw
          (fst (create_user hashpw db username password salt roles)) name p
        = login_user checkpw db name p).
Proof.
  intros Hu Hp Hfresh Hfree Hh.
  rewrite (create_user_fresh db username password salt h roles
             Hu Hp Hfresh Hfree Hh).
  cbn [fst snd]. repeat apply conj.
  - reflexivity.
  - eexists. split.
    + unfold get_all_users, fetch_all, run_query. cbn [users].
      apply in_map. apply order_by_username_In.
      apply in_or_app. right. left. reflexivity.
    + cbn [entry_username entry_role entry_roles DatabaseManager.username role].
      rewrite parse_serialise_filter. repeat split; reflexivity.
  - intros Hcheck. rewrite login_after_insert by exact Hfresh.
    cbn [DatabaseManager.username password_hash role].
    rewrite eqb_refl, (nonempty_fields _ _ Hu Hp).
    unfold _verify_password. rewrite Hcheck, parse_serialise_filter.
    reflexivity.
  - intros name p Hne. rewrite login_after_insert by exact Hfresh.
    cbn [DatabaseManager.username].
    rewrite (proj2 (eqb_neq (strip name) (strip username)) Hne). reflexivity.
Qed.

(** X3.  After [register_user] succeeded on a new username, on a table
    where AUTOINCREMENT has a rowid left and with a password bcrypt hashes,
    the password just set, when bcrypt verifies it against that hash, logs
    the account in under the trimmed username with no roles, so its primary
    role is ["none"]; a password bcrypt rejects against that hash does not
    log in; every other username logs in as before. *)
Theorem register_then_login (db : database) (username password salt h : str) :
  strip username <> [] -> password <> [] ->
  ~ registered (strip username) db ->
  rowid_available db ->
  hashpw password salt = Some h ->
  (checkpw password h = Some true ->
   exists user,
     login_user checkpw
       (fst (register_user hashpw db username password salt))
       username password = Some user
     /\ Models.get_username user = strip username
     /\ Models.get_roles user = []
     /\ Models.get_primary_role user = lit "none")
  /\ (forall wrong,
        checkpw wrong h <> Some true ->
        login_user checkpw
          (fst (register_user hashpw db username password salt))
          username wrong = None)
  /\ (forall name p,
        strip name <> strip username ->
        login_user checkpw
          (fst (register_user hashpw db username password salt)) name p
        = login_user checkpw db name p).
Proof.
  intros Hu Hp Hfresh Hfree Hh.
  rewrite (register_user_fresh db username password salt h
             Hu Hp Hfresh Hfree Hh).
  cbn [fst]. repeat apply conj.
  - intros Hcheck. eexists. split.
    + rewrite login_after_insert by exact Hfresh.
      cbn [DatabaseManager.username password_hash role].
      rewrite eqb_refl, (nonempty_fields _ _ Hu Hp).
      unfold _verify_password. rewrite Hcheck. reflexivity.
    + repeat split; reflexivity.
  - intros wrong Hwrong. rewrite login_after_insert by exact Hfresh.
    cbn [DatabaseManager.username password_hash role].
    rewrite eqb_refl.
    destruct (is_empty (strip username) || is_empty wrong); [reflexivity|].
    unfold _verify_password.
    destruct (checkpw wrong h) as [[|]|];
      [congruence | reflexivity | reflexivity].
  - intros name p Hne. rewrite login_after_insert by exact Hfresh.
    cbn [DatabaseManager.username].
    rewrite (proj2 (eqb_neq (strip name) (strip username)) Hne). reflexivity.
Qed.

(** X4.  [update_user_roles] returns [True], and it changes what a login
    delivers in one way only: a login that succeeded still succeeds under
    the same username, with the entries of [roles] that are in
    [VALID_ROLES] if that username is the updated one and with the old
    roles otherwise; a login that failed still fails. *)
Theorem update_user_roles_login
    (db : database) (username : str) (roles : list str) (name password : str) :
  snd (update_user_roles db username roles) = true
  /\ login_user checkpw (fst (update_user_roles db username roles)) name password
     = match login_user checkpw db name password with
       | Some user =>
           Some {| Models.username := Models.username user;
                   Models.roles :=
                     if eqb (Models.username user) username
                     then filter (fun role => mem role VALID_ROLES) roles
                     else Models.roles user |}
       | None => None
       end.
Proof.
  unfold update_user_roles, execute, run_command. cbn [fst snd].
  split; [reflexivity|].
  unfold login_user.
  destruct (is_empty (strip name) || is_empty password); [reflexivity|].
  rewrite fetch_one_map
    by (intros r; destruct (has_username username r); reflexivity).
  destruct (fetch_one db (SelectUserByUsername (strip name))) as [r|];
    [|reflexivity].
  cbn [option_map].
  destruct (has_username username r) eqn:Hu;
    cbn [set_role password_hash DatabaseManager.username role];
    destruct (_verify_password checkpw password (password_hash r));
    try reflexivity;
    cbn [Models.username Models.roles]; unfold has_username in Hu; rewrite Hu.
  - rewrite parse_serialise_filter. reflexivity.
  - reflexivity.
Qed.

(** X5.  [update_user_password] with an empty new password returns [False]
    and changes nothing, and with a new password bcrypt refuses the
    [ValueError] leaves it with the table unchanged.  With a non-empty one
    bcrypt hashes it returns [True]; logins under other usernames are as
    before; and a login under the updated username, when that account
    exists, is decided by bcrypt against the hash of the new password
    alone, with the roles the account had. *)
Theorem update_user_password_login
    (db : database) (username new_password salt : str) :
  update_user_password hashpw db username [] salt = (db, Returned false)
  /\ (new_password <> [] -> hashpw new_password salt = None ->
      update_user_password hashpw db username new_password salt = (db, Raised))
  /\ (forall h,
      new_password <> [] -> hashpw new_password salt = Some h ->
      snd (update_user_password hashpw db username new_password salt)
        = Returned true
      /\ (forall name p,
            strip name <> username ->
            login_user checkpw
              (fst (update_user_password hashpw db username new_password salt))
              name p
            = login_user checkpw db name p)
      /\ (forall name p r,
            strip name = username -> username <> [] -> p <> [] ->
            fetch_one db (SelectUserByUsername username) = Some r ->
            login_user checkpw
              (fst (update_user_password hashpw db username new_password salt))
              name p
            = if _verify_password checkpw p h
              then Some {| Models.username := username;
                           Models.roles := _parse_roles (role r) |}
              else None)).
Proof.
  split; [reflexivity|]. split.
  { intros Hnew Hh. unfold update_user_password, _hash_password.
    destruct new_password; [congruence|]. cbn [is_empty].
    rewrite Hh. reflexivity. }
  intros h Hnew Hh. unfold update_user_password, _hash_password.
  destruct new_password as [|c new_password]; [congruence|].
  cbn [is_empty]. rewrite Hh. unfold execute, run_command. cbn [fst snd].
  assert (Hg : forall r : row,
             DatabaseManager.username
               (if has_username username r
                then set_password_hash r h
                else r)
             = DatabaseManager.username r)
    by (intros r; destruct (has_username username r); reflexivity).
  repeat apply conj.
  - reflexivity.
  - intros name p Hne. unfold login_user.
    destruct (is_empty (strip name) || is_empty p); [reflexivity|].
    rewrite fetch_one_map by exact Hg.
    destruct (fetch_one db (SelectUserByUsername (strip name))) as [r|] eqn:F;
      [|reflexivity].
    destruct (fetch_one_some db _ _ F) as [_ Hname].
    cbn [option_map].
    rewrite (proj2 (has_username_false username r)) by congruence.
    reflexivity.
  - intros name p r Hname Hu Hp F. subst username. unfold login_user.
    rewrite (nonempty_fields name p Hu Hp).
    rewrite fetch_one_map by exact Hg.
    rewrite F. cbn [option_map].
    destruct (fetch_one_some db _ _ F) as [_ Hr].
    rewrite (proj2 (has_username_true (strip name) r) Hr).
    cbn [set_password_hash password_hash DatabaseManager.username role].
    rewrite Hr. reflexivity.
Qed.

(** X6.  [delete_user] on a username other than ["admin"] closes that
    account and no other: afterwards no password logs in under the deleted
    username, logins under every other username are as before, and the
    directory is the old one without the entries of that username. *)
Theorem delete_user_login (db : database) (username : str) :
  username <> lit "admin" ->
  (forall name p,
      strip name = username ->
      login_user checkpw (fst (delete_user db username)) name p = None)
  /\ (forall name p,
        strip name <> username ->
        login_user checkpw (fst (delete_user db username)) name p
        = login_user checkpw db name p)
  /\ (forall e,
        In e (get_all_users (fst (delete_user db username)))
        <-> In e (get_all_users db) /\ entry_username e <> username).
Proof.
  intros Hu. unfold delete_user.
  rewrite (proj2 (eqb_neq username (lit "admin")) Hu).
  unfold execute, run_command. cbn [fst]. repeat apply conj.
  - intros name p Hname. unfold login_user.
    rewrite fetch_one_delete, Hname, eqb_refl.
    destruct (is_empty username || is_empty p); reflexivity.
  - intros name p Hne. apply login_user_lookup.
    rewrite fetch_one_delete.
    rewrite (proj2 (eqb_neq (strip name) username) Hne). reflexivity.
  - intros e. unfold get_all_users, fetch_all, run_query. cbn [users].
    rewrite !in_map_iff. split.
    + intros (r & <- & Hr).
      apply (proj1 (order_by_username_In r _)) in Hr.
      pose proof (delete_removes username (users db) r Hr) as Hne.
      apply filter_In in Hr. split; [|exact Hne].
      exists r. split; [reflexivity|].
      apply order_by_username_In. apply Hr.
    + intros ((r & <- & Hr) & Hne). cbn [entry_username] in Hne.
      exists r. split; [reflexivity|].
      apply order_by_username_In. apply filter_In.
      split; [apply order_by_username_In; exact Hr|].
      apply negb_true_iff. apply has_username_false. exact Hne.
Qed.

(** X7.  Every operation of [AuthManager] that writes keeps the usernames
    of the table pairwise distinct, whether it returns or raises. *)
Theorem operations_keep_unique (db : database) :
  unique_usernames db ->
  (forall u p s, unique_usernames (fst (register_user hashpw db u p s)))
  /\ (forall u p s roles,
        unique_usernames (fst (create_user hashpw db u p s roles)))
  /\ (forall u roles, unique_usernames (fst (update_user_roles db u roles)))
  /\ (forall u p s,
        unique_usernames (fst (update_user_password hashpw db u p s)))
  /\ (forall u, unique_usernames (fst (delete_user db u)))
  /\ (forall s, unique_usernames (fst (ensure_admin_user hashpw db s))).
Proof.
  intros H.
  assert (K : forall c (A : Type) (f : option Z -> A),
             unique_usernames
               (fst (let '(db', result) := execute db c in (db', f result)))).
  { intros c A f. pose proof (execute_keeps_unique db c H) as Hc.
    destruct (execute db c). exact Hc. }
  repeat apply conj.
  - intros u p s. unfold register_user.
    destruct (is_empty (strip u) || is_empty p); [exact H|].
    destruct (fetch_one db (SelectUserByUsername (strip u))); [exact H|].
    destruct (_hash_password hashpw p s); [|exact H].
    apply (K _ _ (fun _ => Returned (true, _))).
  - intros u p s roles. unfold create_user.
    destruct (is_empty (strip u) || is_empty p); [exact H|].
    destruct (fetch_one db (SelectUserByUsername (strip u))); [exact H|].
    destruct (_hash_password hashpw p s); [|exact H].
    apply (K _ _ (fun _ => Returned (true, _))).
  - intros u roles. unfold update_user_roles. apply K.
  - intros u p s. unfold update_user_password.
    destruct (is_empty p); [exact H|].
    destruct (_hash_password hashpw p s); [|exact H].
    apply (K _ _ (fun result =>
                    Returned (match result with
                              | Some _ => true
                              | None => false
                              end))).
  - intros u. unfold delete_user.
    destruct (eqb u (lit "admin")); [exact H|]. apply K.
  - intros s. unfold ensure_admin_user.
    destruct (fetch_one db (SelectUserByUsername (lit "admin"))); [exact H|].
    destruct (_hash_password hashpw (lit "admin") s); [|exact H].
    cbn [fst]. apply execute_keeps_unique. exact H.
Qed.

(** X10.  The primary role of a user [login_user] returns is ["none"]
    exactly when the account has no valid role, and is otherwise the first
    of its roles, an element of [VALID_ROLES]. *)
Theorem login_primary_role
    (db : database) (name password : str) (user : Models.User) :
  login_user checkpw db name password = Some user ->
  (Models.get_primary_role user = lit "none" <-> Models.get_roles user = [])
  /\ (Models.get_roles user <> [] ->
      In (Models.get_primary_role user) VALID_ROLES
      /\ Models.get_primary_role user = hd [] (Models.get_roles user)).
Proof.
  intros H.
  assert (V : Forall (fun r => In r VALID_ROLES) (Models.roles user)).
  { unfold login_user in H.
    destruct (is_empty (strip name) || is_empty password); [discriminate|].
    destruct (fetch_one db (SelectUserByUsername (strip name)));
      [|discriminate].
    destruct (_verify_password checkpw password (password_hash r));
      [|discriminate].
    inversion H. apply parse_roles_valid. }
  unfold Models.get_primary_role, Models.get_roles.
  destruct (Models.roles user) as [|r l].
  - split; [split; reflexivity | congruence].
  - inversion V as [|? ? Hr _]; subst. split.
    + split; [|discriminate].
      intros E. subst r. apply mem_In in Hr. discriminate Hr.
    + intros _. split; [exact Hr | reflexivity].
Qed.

(** X11.  No sequence of [delete_user] calls removes or alters a row named
    ["admin"]. *)
Theorem admin_survives_deletes
    (db : database) (usernames : list str) (r : row) :
  In r (users db) -> DatabaseManager.username r = lit "admin" ->
  In r (users (fold_left (fun d u => fst (delete_user d u)) usernames db)).
Proof.
  revert db. induction usernames as [|u us IH]; intros db Hr Hadmin;
    [exact Hr|].
  cbn [fold_left]. apply IH; [|exact Hadmin].
  unfold delete_user. destruct (eqb u (lit "admin")) eqn:E; [exact Hr|].
  unfold execute, run_command. cbn [fst users].
  apply filter_In. split; [exact Hr|].
  apply negb_true_iff. apply has_username_false.
  apply eqb_neq in E. congruence.
Qed.

(** X12.  On a table without an ["admin"] account where AUTOINCREMENT has
    a rowid left, and with bcrypt hashing the default password,
    [ensure_admin_user] creates an account that the password ["admin"] logs
    in, when bcrypt verifies it against that hash, with exactly the role
    ["admin"]; logins under every other username are as before. *)
Theorem bootstrap_admin_login (db : database) (salt h : str) :
  ~ registered (lit "admin") db ->
  rowid_available db ->
  hashpw (lit "admin") salt = Some h ->
  (checkpw (lit "admin") h = Some true ->
   login_user checkpw (fst (ensure_admin_user hashpw db salt))
     (lit "admin") (lit "admin")
   = Some {| Models.username := lit "admin";
             Models.roles := [lit "admin"] |})
  /\ (forall name p,
        strip name <> lit "admin" ->
        login_user checkpw (fst (ensure_admin_user hashpw db salt)) name p
        = login_user checkpw db name p).
Proof.
  intros Hfresh Hfree Hh. unfold ensure_admin_user, _hash_password.
  rewrite (proj2 (fetch_one_none db (lit "admin")) Hfresh), Hh.
  rewrite (execute_insert_fresh db _ _ _ Hfree Hfresh).
  cbn [fst]. split.
  - intros Hcheck. rewrite login_after_insert by exact Hfresh.
    cbn [DatabaseManager.username password_hash role].
    change (strip (lit "admin")) with (lit "admin").
    rewrite eqb_refl. unfold _verify_password.
    rewrite Hcheck. reflexivity.
  - intros name p Hne. rewrite login_after_insert by exact Hfresh.
    cbn [DatabaseManager.username].
    rewrite (proj2 (eqb_neq (strip name) (lit "admin")) Hne). reflexivity.
Qed.

End Bcrypt.

(** ** The theorems at the sample tables *)

Import Samples.

Ltac differs := let E := fresh "E" in intro E; vm_compute in E; discriminate E.

Lemma alice_registered : registered (lit "alice") alice_db.
Proof. exists alice_row. split; [left; reflexivity | reflexivity]. Qed.

Lemma taken_or_missing_rejected_witness :
  create_user PlainHash.hashpw alice_db (lit "  ") (lit "pw") (lit "salt")
    [lit "it_ops"]
    = (alice_db, Returned (false, lit "Username and password are required."))
  /\ register_user PlainHash.hashpw alice_db (lit " alice ") (lit "pw")
       (lit "salt")
     = (alice_db, Returned (false, lit "Username already exists."))
  /\ create_user PlainHash.hashpw alice_db (lit " alice ") (lit "pw")
       (lit "salt") [lit "it_ops"]
     = (alice_db, Returned (false, lit "Username already exists.")).
Proof.
  destruct (taken_or_missing_rejected PlainHash.hashpw alice_db
              (lit "  ") (lit "pw") (lit "salt") [lit "it_ops"]) as [H1 _].
  destruct (taken_or_missing_rejected PlainHash.hashpw alice_db
              (lit " alice ") (lit "pw") (lit "salt") [lit "it_ops"])
    as [_ H2].
  split; [apply H1; left; reflexivity|].
  apply H2; [differs | differs | exact alice_registered].
Defined.

Lemma create_user_round_trip_witness :
  rowid_available alice_db
  /\ PlainHash.hashpw (lit "pw") (lit "salt")
     = Some (PlainHash.digest (lit "pw") (lit "salt"))
  /\ snd (create_user PlainHash.hashpw alice_db (lit " bob ") (lit "pw")
            (lit "salt") [lit "bogus_role"; lit "it_ops"])
     = Returned (true, lit "User created.")
  /\ login_user PlainHash.checkpw
       (fst (create_user PlainHash.hashpw alice_db (lit " bob ") (lit "pw")
               (lit "salt") [lit "bogus_role"; lit "it_ops"]))
       (lit " bob ") (lit "pw")
     = Some {| Models.username := lit "bob"; Models.roles := [lit "it_ops"] |}.
Proof.
  assert (Hu : strip (lit " bob ") <> []) by differs.
  assert (Hp : lit "pw" <> []) by differs.
  assert (Hfresh : ~ registered (strip (lit " bob ")) alice_db)
    by (apply AccessControl.alice_db_lacks; reflexivity).
  assert (Hh : PlainHash.hashpw (lit "pw") (lit "salt")
               = Some (PlainHash.digest (lit "pw") (lit "salt")))
    by reflexivity.
  destruct (create_user_round_trip PlainHash.hashpw PlainHash.checkpw alice_db
              (lit " bob ") (lit "pw") (lit "salt") _
              [lit "bogus_role"; lit "it_ops"] Hu Hp Hfresh
              AccessControl.alice_db_rowid Hh)
    as (H1 & _ & H3 & _).
  split; [exact AccessControl.alice_db_rowid|]. split; [exact Hh|].
  split; [exact H1 | exact (H3 eq_refl)].
Defined.

Lemma register_then_login_witness :
  rowid_available alice_db
  /\ PlainHash.hashpw (lit "pw") (lit "salt")
     = Some (PlainHash.digest (lit "pw") (lit "salt"))
  /\ (exists user,
        login_user PlainHash.checkpw
          (fst (register_user PlainHash.hashpw alice_db (lit "bob") (lit "pw")
                  (lit "salt")))
          (lit "bob") (lit "pw") = Some user
        /\ Models.get_username user = strip (lit "bob")
        /\ Models.get_roles user = []
        /\ Models.get_primary_role user = lit "none")
  /\ login_user PlainHash.checkpw
       (fst (register_user PlainHash.hashpw alice_db (lit "bob") (lit "pw")
               (lit "salt")))
       (lit "bob") (lit "guess") = None
  /\ login_user PlainHash.checkpw
       (fst (register_user PlainHash.hashpw alice_db (lit "bob") (lit "pw")
               (lit "salt")))
       (lit "alice") (lit "secret123")
     = login_user PlainHash.checkpw alice_db (lit "alice") (lit "secret123").
Proof.
  assert (Hu : strip (lit "bob") <> []) by differs.
  assert (Hp : lit "pw" <> []) by differs.
  assert (Hfresh : ~ registered (strip (lit "bob")) alice_db)
    by (apply AccessControl.alice_db_lacks; reflexivity).
  assert (Hh : PlainHash.hashpw (lit "pw") (lit "salt")
               = Some (PlainHash.digest (lit "pw") (lit "salt")))
    by reflexivity.
  destruct (register_then_login PlainHash.hashpw PlainHash.checkpw alice_db
              (lit "bob") (lit "pw") (lit "salt") _ Hu Hp Hfresh
              AccessControl.alice_db_rowid Hh)
    as (H1 & H2 & H3).
  split; [exact AccessControl.alice_db_rowid|]. split; [exact Hh|].
  split; [exact (H1 eq_refl)|].
  split; [apply H2; differs | apply H3; differs].
Defined.

Lemma update_user_password_login_witness :
  PlainHash.hashpw (lit "n3w") (lit "pepper")
    = Some (PlainHash.digest (lit "n3w") (lit "pepper"))
  /\ login_user PlainHash.checkpw
       (fst (update_user_password PlainHash.hashpw alice_db (lit "alice")
               (lit "n3w") (lit "pepper")))
       (lit "alice") (lit "n3w")
     = Some {| Models.username := lit "alice"; Models.roles := [] |}
  /\ login_user PlainHash.checkpw
       (fst (update_user_password PlainHash.hashpw alice_db (lit "alice")
               (lit "n3w") (lit "pepper")))
       (lit "alice") (lit "secret123")
     = None
  /\ update_user_password PlainHash.hashpw alice_db (lit "alice")
       long_password (lit "pepper")
     = (alice_db, Raised).
Proof.
  assert (Hnew : lit "n3w" <> []) by differs.
  assert (Hh : PlainHash.hashpw (lit "n3w") (lit "pepper")
               = Some (PlainHash.digest (lit "n3w") (lit "pepper")))
    by reflexivity.
  destruct (update_user_password_login PlainHash.hashpw PlainHash.checkpw
              alice_db (lit "alice") (lit "n3w") (lit "pepper"))
    as (_ & _ & H).
  destruct (H _ Hnew Hh) as (_ & _ & H3).
  destruct (update_user_password_login PlainHash.hashpw PlainHash.checkpw
              alice_db (lit "alice") long_password (lit "pepper"))
    as (_ & Hraise & _).
  split; [exact Hh|]. split; [|split].
  - apply (H3 (lit "alice") (lit "n3w") alice_row);
      [reflexivity | differs | differs | reflexivity].
  - apply (H3 (lit "alice") (lit "secret123") alice_row);
      [reflexivity | differs | differs | reflexivity].
  - apply Hraise; [differs | reflexivity].
Defined.

Lemma delete_user_login_witness :
  lit "alice" <> lit "admin"
  /\ login_user PlainHash.checkpw (fst (delete_user staffed_db (lit "alice")))
       (lit "alice") (lit "secret123") = None
  /\ login_user PlainHash.checkpw (fst (delete_user staffed_db (lit "alice")))
       (lit "admin") (lit "admin")
     = login_user PlainHash.checkpw staffed_db (lit "admin") (lit "admin").
Proof.
  assert (Hne : lit "alice" <> lit "admin") by differs.
  destruct (delete_user_login PlainHash.checkpw staffed_db (lit "alice") Hne)
    as (H1 & H2 & _).
  split; [exact Hne|].
  split; [apply H1; reflexivity | apply H2; differs].
Defined.

Lemma operations_keep_unique_witness :
  unique_usernames alice_db
  /\ unique_usernames
       (fst (register_user PlainHash.hashpw alice_db (lit "bob") (lit "pw")
               (lit "salt")))
  /\ unique_usernames (fst (delete_user alice_db (lit "alice"))).
Proof.
  pose proof AccessControl.alice_db_unique as H.
  destruct (operations_keep_unique PlainHash.hashpw alice_db H)
    as (H1 & _ & _ & _ & H5 & _).
  split; [exact H|]. split; [apply H1 | apply H5].
Defined.

Lemma login_primary_role_witness :
  login_user PlainHash.checkpw staffed_db (lit "admin") (lit "admin")
    = Some {| Models.username := lit "admin"; Models.roles := [lit "admin"] |}
  /\ In (Models.get_primary_role
           {| Models.username := lit "admin"; Models.roles := [lit "admin"] |})
        VALID_ROLES.
Proof.
  assert (H : login_user PlainHash.checkpw staffed_db (lit "admin") (lit "admin")
              = Some {| Models.username := lit "admin";
                        Models.roles := [lit "admin"] |}) by reflexivity.
  split; [exact H|].
  destruct (login_primary_role PlainHash.checkpw staffed_db (lit "admin")
              (lit "admin") _ H) as (_ & H2).
  apply H2. discriminate.
Defined.

Lemma admin_survives_deletes_witness :
  In admin_row (users staffed_db)
  /\ In admin_row
        (users (fold_left (fun d u => fst (delete_user d u))
                          [lit "alice"; lit "admin"; lit "ghost"] staffed_db)).
Proof.
  assert (H : In admin_row (users staffed_db)) by (right; left; reflexivity).
  split; [exact H|].
  exact (admin_survives_deletes staffed_db
           [lit "alice"; lit "admin"; lit "ghost"] admin_row H eq_refl).
Defined.

Lemma bootstrap_admin_login_witness :
  ~ registered (lit "admin") alice_db
  /\ rowid_available alice_db
  /\ PlainHash.hashpw (lit "admin") (lit "salt")
     = Some (PlainHash.digest (lit "admin") (lit "salt"))
  /\ login_user PlainHash.checkpw
       (fst (ensure_admin_user PlainHash.hashpw alice_db (lit "salt")))
       (lit "admin") (lit "admin")
     = Some {| Models.username := lit "admin"; Models.roles := [lit "admin"] |}.
Proof.
  assert (H : ~ registered (lit "admin") alice_db)
    by (apply AccessControl.alice_db_lacks; reflexivity).
  assert (Hh : PlainHash.hashpw (lit "admin") (lit "salt")
               = Some (PlainHash.digest (lit "admin") (lit "salt")))
    by reflexivity.
  destruct (bootstrap_admin_login PlainHash.hashpw PlainHash.checkpw alice_db
              (lit "salt") _ H AccessControl.alice_db_rowid Hh) as (H1 & _).
  split; [exact H|]. split; [exact AccessControl.alice_db_rowid|].
  split; [exact Hh | exact (H1 eq_refl)].
Defined.

End AccountLifecycle.

(* ================================================================== *)
(** * The user directory *)

Module Directory.
Import PyStr PyStrFacts.
Import DatabaseManager DatabaseFacts.
Import AuthManager.

Lemma leb_total (a b : str) : leb a b = false -> leb b a = true.
Proof.
  revert b. induction a as [|x a IH]; intros [|y b]; simpl;
    try discriminate; try reflexivity.
  intros H. apply orb_false_iff in H. destruct H as [Hlt Hrest].
  apply N.ltb_ge in Hlt.
  destruct (N.eqb x y) eqn:E.
  - apply N.eqb_eq in E. subst y. simpl in Hrest.
    rewrite N.eqb_refl, (IH b Hrest). apply orb_true_r.
  - apply N.eqb_neq in E.
    assert (L : (y <? x)%N = true) by (apply N.ltb_lt; lia).
    rewrite L. reflexivity.
Qed.

Lemma leb_trans (a b c : str) :
  leb a b = true -> leb b c = true -> leb a c = true.
Proof.
  revert b c. induction a as [|x a IH]; intros [|y b] [|z c]; simpl;
    try discriminate; try reflexivity.
  rewrite !orb_true_iff, !andb_true_iff, !N.ltb_lt, !N.eqb_eq.
  intros [H1|[H1 H1']] [H2|[H2 H2']].
  - left. lia.
  - left. lia.
  - left. lia.
  - right. split; [lia | exact (IH b c H1' H2')].
Qed.

Local Abbreviation by_username :=
  (fun x y : row => leb (username x) (username y) = true).

Lemma insert_by_username_sorted (r : row) (l : list row) :
  Sorted by_username l -> Sorted by_username (insert_by_username r l).
Proof.
  induction 1 as [|x l Hl IH Hx]; simpl.
  - repeat constructor.
  - destruct (leb (username r) (username x)) eqn:E.
    + constructor; [constructor; assumption|].
      constructor. exact E.
    + constructor; [exact IH|].
      destruct l as [|y l]; simpl.
      * constructor. apply leb_total. exact E.
      * destruct (leb (username r) (username y)).
        -- constructor. apply leb_total. exact E.
        -- inversion Hx; subst. constructor. assumption.
Qed.

Lemma order_by_username_sorted (l : list row) :
  Sorted by_username (order_by_username l).
Proof.
  induction l as [|x l IH]; simpl; [constructor|].
  apply insert_by_username_sorted. exact IH.
Qed.

Lemma insert_by_username_perm (r : row) (l : list row) :
  Permutation (insert_by_username r l) (r :: l).
Proof.
  induction l as [|x l IH]; simpl; [reflexivity|].
  destruct (leb (username r) (username x)); [reflexivity|].
  rewrite IH. apply perm_swap.
Qed.

Lemma order_by_username_perm (l : list row) :
  Permutation (order_by_username l) l.
Proof.
  induction l as [|x l IH]; simpl; [reflexivity|].
  rewrite insert_by_username_perm, IH. reflexivity.
Qed.

Lemma strongly_sorted_usernames (l : list row) :
  StronglySorted by_username l ->
  StronglySorted (fun a b => leb a b = true) (map username l).
Proof.
  induction 1 as [|x l Hl IH Hx]; simpl; constructor; [exact IH|].
  apply Forall_forall. intros u Hu. apply in_map_iff in Hu.
  destruct Hu as (y & <- & Hy).
  rewrite Forall_forall in Hx. exact (Hx y Hy).
Qed.

(** X8.  [get_all_users] lists every account once and in ascending order
    of username: the usernames of its entries are a rearrangement of the
    usernames of the table, each entry is followed only by entries whose
    username is not smaller, and each entry carries the parsed roles of
    its own row. *)
Theorem get_all_users_ordered (db : database) :
  Permutation (map entry_username (get_all_users db))
              (map username (users db))
  /\ StronglySorted (fun a b => leb a b = true)
                    (map entry_username (get_all_users db))
  /\ (forall e, In e (get_all_users db) ->
        exists r, In r (users db)
          /\ entry_id e = id r /\ entry_username e = username r
          /\ entry_role e = role r /\ entry_roles e = _parse_roles (role r)).
Proof.
  unfold get_all_users, fetch_all, run_query.
  assert (E : forall l : list row,
             map entry_username
               (map (fun r => {| entry_id := id r;
                                 entry_username := username r;
                                 entry_role := role r;
                                 entry_roles := _parse_roles (role r) |}) l)
             = map username l).
  { intros l. rewrite map_map. reflexivity. }
  rewrite E. repeat apply conj.
  - apply Permutation_map. apply order_by_username_perm.
  - apply strongly_sorted_usernames.
    apply Sorted_StronglySorted.
    + intros x y z. apply leb_trans.
    + apply order_by_username_sorted.
  - intros e He. apply in_map_iff in He. destruct He as (r & <- & Hr).
    exists r. split; [apply order_by_username_In; exact Hr|].
    repeat split; reflexivity.
Qed.

Lemma get_all_users_ordered_witness :
  map entry_username (get_all_users Samples.staffed_db)
    = [lit "admin"; lit "alice"]
  /\ StronglySorted (fun a b => leb a b = true)
                    (map entry_username (get_all_users Samples.staffed_db)).
Proof.
  split; [reflexivity|].
  apply (get_all_users_ordered Samples.staffed_db).
Defined.

End Directory.

(* ================================================================== *)
(** * Who gets past the page guards *)

Module PageAccess.
Import PyStr PyStrFacts.
Import DatabaseManager DatabaseFacts.
Import AuthManager RoleCodec AccountLifecycle.
Import Session.

Ltac conjuncts := repeat match goal with |- _ /\ _ => split end.

Lemma is_nil_intersection (a b : list str) :
  is_nil (intersection a b) = negb (existsb (fun x => mem x b) a).
Proof.
  unfold intersection. induction a as [|x a IH]; [reflexivity|].
  simpl. destruct (mem x b); [reflexivity | exact IH].
Qed.

Lemma existsb_mem (a b : list str) :
  existsb (fun x => mem x b) a = true <-> exists r, In r a /\ In r b.
Proof.
  rewrite existsb_exists. split; intros (r & Hr & H); exists r;
    (split; [exact Hr | apply mem_In; exact H]).
Qed.

(** The shape the four role guards share once the set intersection is
    written as a search. *)
Lemma role_guard_shape (st : session_state) (allowed : list str) (msg : str) :
  (if negb (logged_in st) then SwitchPage (lit "pages/Login.py")
   else if mem (lit "admin") (roles st) then Continue
   else if negb (existsb (fun role => mem role allowed) (roles st))
        then Stop msg
        else Continue) = Continue
  <-> logged_in st = true
      /\ (In (lit "admin") (roles st)
          \/ exists r, In r (roles st) /\ In r allowed).
Proof.
  destruct (logged_in st); cbn [negb].
  2: { split; [discriminate | intros [H _]; discriminate H]. }
  destruct (mem (lit "admin") (roles st)) eqn:A.
  - split; [|reflexivity].
    intros _. split; [reflexivity|]. left. apply mem_In. exact A.
  - destruct (existsb (fun role => mem role allowed) (roles st)) eqn:B;
      cbn [negb].
    + split; [|reflexivity].
      intros _. split; [reflexivity|]. right. apply existsb_mem. exact B.
    + split; [discriminate|].
      intros [_ [H|H]].
      * apply mem_In in H. congruence.
      * apply existsb_mem in H. congruence.
Qed.

Lemma incident_guard_iff (st : session_state) :
  IncidentReporting.guard_page st = Continue
  <-> logged_in st = true
      /\ (In (lit "admin") (roles st)
          \/ exists r, In r (roles st) /\ In r IncidentReporting.ALLOWED_ROLES).
Proof. apply role_guard_shape. Qed.

Lemma analysis_guard_iff (st : session_state) :
  DataAnalysis.guard_page st = Continue
  <-> logged_in st = true
      /\ (In (lit "admin") (roles st)
          \/ exists r, In r (roles st) /\ In r DataAnalysis.ALLOWED_ROLES).
Proof.
  unfold DataAnalysis.guard_page. rewrite is_nil_intersection.
  apply role_guard_shape.
Qed.

Lemma ticketing_guard_iff (st : session_state) :
  ITTicketing.guard_page st = Continue
  <-> logged_in st = true
      /\ (In (lit "admin") (roles st)
          \/ exists r, In r (roles st) /\ In r ITTicketing.ALLOWED_ROLES).
Proof. apply role_guard_shape. Qed.

Lemma assistant_guard_iff (st : session_state) :
  AIAssistant.guard_page st = Continue
  <-> logged_in st = true
      /\ (In (lit "admin") (roles st)
          \/ exists r, In r (roles st) /\ In r AIAssistant.ALLOWED_ROLES).
Proof.
  unfold AIAssistant.guard_page. rewrite is_nil_intersection.
  apply role_guard_shape.
Qed.

Lemma management_guard_iff (st : session_state) :
  UserManagement.guard_page st = Continue
  <-> logged_in st = true /\ In (lit "admin") (roles st).
Proof.
  unfold UserManagement.guard_page.
  destruct (logged_in st); cbn [negb].
  2: { split; [discriminate | intros [H _]; discriminate H]. }
  destruct (mem (lit "admin") (roles st)) eqn:A; cbn [negb].
  - split; [|reflexivity]. intros _. split; [reflexivity|].
    apply mem_In. exact A.
  - split; [discriminate|]. intros [_ H]. apply mem_In in H. congruence.
Qed.

Lemma allowed_iff (st : session_state) (c : Dashboard.card) :
  Dashboard.allowed st c = true
  <-> Dashboard.card_roles c = []
      \/ In (lit "admin") (roles st)
      \/ exists r, In r (roles st) /\ In r (Dashboard.card_roles c).
Proof.
  unfold Dashboard.allowed.
  rewrite is_nil_intersection, negb_involutive, !orb_true_iff.
  rewrite existsb_mem, mem_In.
  destruct (Dashboard.card_roles c); simpl; intuition congruence.
Qed.

(** X13.  Each role guard lets the script continue exactly for a logged-in
    session that holds ["admin"] or one of the page's allowed roles, the
    user-management guard exactly for a logged-in session that holds
    ["admin"]; a session that is not logged in is sent to the login page by
    all five. *)
Theorem page_guards_admit (st : session_state) :
  (IncidentReporting.guard_page st = Continue
   <-> logged_in st = true
       /\ (In (lit "admin") (roles st) \/ In (lit "cybersec_eng") (roles st)))
  /\ (DataAnalysis.guard_page st = Continue
      <-> logged_in st = true
          /\ (In (lit "admin") (roles st)
              \/ In (lit "data_analyst") (roles st)))
  /\ (ITTicketing.guard_page st = Continue
      <-> logged_in st = true
          /\ (In (lit "admin") (roles st) \/ In (lit "it_ops") (roles st)))
  /\ (AIAssistant.guard_page st = Continue
      <-> logged_in st = true
          /\ exists r, In r (roles st) /\ In r VALID_ROLES)
  /\ (UserManagement.guard_page st = Continue
      <-> logged_in st = true /\ In (lit "admin") (roles st))
  /\ (logged_in st = false ->
      IncidentReporting.guard_page st = SwitchPage (lit "pages/Login.py")
      /\ DataAnalysis.guard_page st = SwitchPage (lit "pages/Login.py")
      /\ ITTicketing.guard_page st = SwitchPage (lit "pages/Login.py")
      /\ AIAssistant.guard_page st = SwitchPage (lit "pages/Login.py")
      /\ UserManagement.guard_page st = SwitchPage (lit "pages/Login.py")).
Proof.
  conjuncts.
  - rewrite incident_guard_iff. split; intros [Hl H]; (split; [exact Hl|]).
    + destruct H as [H|(r & Hr & [<-|[<-|[]]])]; auto.
    + destruct H as [H|H]; [left; exact H|].
      right. exists (lit "cybersec_eng"). split; [exact H | left; reflexivity].
  - rewrite analysis_guard_iff. split; intros [Hl H]; (split; [exact Hl|]).
    + destruct H as [H|(r & Hr & [<-|[<-|[]]])]; auto.
    + destruct H as [H|H]; [left; exact H|].
      right. exists (lit "data_analyst"). split; [exact H | left; reflexivity].
  - rewrite ticketing_guard_iff. split; intros [Hl H]; (split; [exact Hl|]).
    + destruct H as [H|(r & Hr & [<-|[<-|[]]])]; auto.
    + destruct H as [H|H]; [left; exact H|].
      right. exists (lit "it_ops"). split; [exact H | left; reflexivity].
  - rewrite assistant_guard_iff. split; intros [Hl H]; (split; [exact Hl|]).
    + destruct H as [H|H]; [|exact H].
      exists (lit "admin"). split; [exact H|].
      right. right. right. left. reflexivity.
    + right. exact H.
  - apply management_guard_iff.
  - intros Hl.
    unfold IncidentReporting.guard_page, DataAnalysis.guard_page,
      ITTicketing.guard_page, AIAssistant.guard_page,
      UserManagement.guard_page.
    rewrite Hl. repeat split; reflexivity.
Qed.

(** X14.  A logged-in session that holds ["admin"] passes all five page
    guards and finds every dashboard card enabled, whatever other roles it
    holds. *)
Theorem admin_unlocks_everything (st : session_state) :
  logged_in st = true -> In (lit "admin") (roles st) ->
  IncidentReporting.guard_page st = Continue
  /\ DataAnalysis.guard_page st = Continue
  /\ ITTicketing.guard_page st = Continue
  /\ AIAssistant.guard_page st = Continue
  /\ UserManagement.guard_page st = Continue
  /\ (forall c, In c Dashboard.CARDS -> Dashboard.allowed st c = true).
Proof.
  intros Hl Ha. conjuncts.
  - apply incident_guard_iff. auto.
  - apply analysis_guard_iff. auto.
  - apply ticketing_guard_iff. auto.
  - apply assistant_guard_iff. auto.
  - apply management_guard_iff. auto.
  - intros c _. apply allowed_iff. auto.
Qed.

(** X15.  A dashboard card is enabled exactly when the guard of the page
    behind it lets the session in: for a logged-in session and each of the
    five guarded pages, [allowed] of the page's card agrees with the page's
    [guard_page]. *)
Theorem card_matches_guard (st : session_state) (c : Dashboard.card) :
  In c Dashboard.CARDS -> logged_in st = true ->
  (Dashboard.page c = lit "pages/2_Incident_Reporting.py" ->
   (Dashboard.allowed st c = true
    <-> IncidentReporting.guard_page st = Continue))
  /\ (Dashboard.page c = lit "pages/3_Data_Analysis.py" ->
      (Dashboard.allowed st c = true <-> DataAnalysis.guard_page st = Continue))
  /\ (Dashboard.page c = lit "pages/4_IT_Ticketing_Dashboard.py" ->
      (Dashboard.allowed st c = true <-> ITTicketing.guard_page st = Continue))
  /\ (Dashboard.page c = lit "pages/6_User_Management.py" ->
      (Dashboard.allowed st c = true
       <-> UserManagement.guard_page st = Continue))
  /\ (Dashboard.page c = lit "pages/8_AI_Assistant.py" ->
      (Dashboard.allowed st c = true <-> AIAssistant.guard_page st = Continue)).
Proof.
  intros Hc Hl.
  rewrite allowed_iff, incident_guard_iff, analysis_guard_iff,
    ticketing_guard_iff, management_guard_iff, assistant_guard_iff.
  destruct Hc as [<-|[<-|[<-|[<-|[<-|[<-|[]]]]]]];
    cbn [Dashboard.page Dashboard.card_roles];
    conjuncts; intros Hp;
    try (exfalso; vm_compute in Hp; discriminate Hp);
    clear Hp; split.
  all: try (intros [H|H]; [discriminate H | split; [exact Hl | exact H]]).
  all: try (intros [_ H]; right; exact H).
  - intros [H|[H|(r & Hr & [<-|[]])]];
      [discriminate H | split; assumption | split; assumption].
  - intros [_ H]. right. left. exact H.
Qed.

(** The technicians are the usernames of the rows whose parsed roles hold
    ["it_ops"]. *)
Lemma technician_rows (db : database) (u : str) :
  In u (ITTicketing.get_technicians db)
  <-> exists r, In r (users db) /\ DatabaseManager.username r = u
        /\ In (lit "it_ops") (_parse_roles (role r)).
Proof.
  unfold ITTicketing.get_technicians, get_all_users, fetch_all, run_query.
  rewrite in_map_iff. split.
  - intros (e & <- & He). apply filter_In in He. destruct He as [He Hops].
    apply in_map_iff in He. destruct He as (r & <- & Hr).
    cbn [entry_username entry_roles] in *.
    exists r. split; [apply order_by_username_In; exact Hr|].
    split; [reflexivity | apply mem_In; exact Hops].
  - intros (r & Hr & <- & Hops).
    eexists. split; [|apply filter_In; split].
    2: { apply in_map. apply order_by_username_In. exact Hr. }
    + reflexivity.
    + cbn [entry_roles]. apply mem_In. exact Hops.
Qed.

(** X18.  [get_technicians] offers a username exactly when an account of
    that name holds ["it_ops"]: after [update_user_roles] on an existing
    account, that username is offered exactly when ["it_ops"] is among the
    new roles, and every other username is offered exactly as before. *)
Theorem technicians_follow_roles
    (db : database) (u : str) (roles : list str) :
  registered u db ->
  (In u (ITTicketing.get_technicians (fst (update_user_roles db u roles)))
   <-> In (lit "it_ops") roles)
  /\ (forall v, v <> u ->
        (In v (ITTicketing.get_technicians (fst (update_user_roles db u roles)))
         <-> In v (ITTicketing.get_technicians db))).
Proof.
  intros (r0 & Hr0 & Hu0).
  assert (Hops : In (lit "it_ops") (_parse_roles (_serialise_roles roles))
                 <-> In (lit "it_ops") roles).
  { rewrite parse_serialise_filter, filter_In, mem_In.
    split; [intros [H _]; exact H|].
    intros H. split; [exact H|]. right. right. left. reflexivity. }
  unfold update_user_roles, execute, run_command. cbn [fst].
  split; [|intros v Hv]; rewrite !technician_rows; cbn [users].
  - split.
    + intros (r & Hr & Hname & H). apply in_map_iff in Hr.
      destruct Hr as (x & <- & Hx).
      destruct (has_username u x) eqn:E.
      * cbn [set_role role] in H. apply Hops. exact H.
      * apply has_username_false in E. contradiction.
    + intros H. exists (set_role r0 (_serialise_roles roles)).
      split; [|split; [exact Hu0 | apply Hops; exact H]].
      apply in_map_iff. exists r0. split; [|exact Hr0].
      rewrite (proj2 (has_username_true u r0) Hu0). reflexivity.
  - split.
    + intros (r & Hr & Hname & H). apply in_map_iff in Hr.
      destruct Hr as (x & <- & Hx).
      destruct (has_username u x) eqn:E.
      * apply has_username_true in E. cbn [set_role DatabaseManager.username]
          in Hname. congruence.
      * exists x. auto.
    + intros (r & Hr & Hname & H). exists r. split; [|auto].
      apply in_map_iff. exists r. split; [|exact Hr].
      rewrite (proj2 (has_username_false u r)) by congruence. reflexivity.
Qed.

(** X19.  In the user table the Delete button of a row is disabled exactly
    when [delete_user] would refuse the row's username; for an enabled row
    [delete_user] returns [True] and the directory no longer lists that
    username. *)
Theorem delete_button_matches_guard (db : database) (e : account_entry) :
  snd (delete_user db (entry_username e))
    = negb (UserManagement.disable_delete e)
  /\ (UserManagement.disable_delete e = false ->
      forall e', In e' (get_all_users (fst (delete_user db (entry_username e)))) ->
                 entry_username e' <> entry_username e).
Proof.
  unfold UserManagement.disable_delete, delete_user.
  destruct (eqb (entry_username e) (lit "admin")); split;
    try reflexivity; try discriminate.
  intros _ e' He'.
  unfold execute, run_command, get_all_users, fetch_all, run_query in He'.
  cbn [fst users] in He'.
  apply in_map_iff in He'. destruct He' as (r & <- & Hr).
  apply (proj1 (order_by_username_In r _)) in Hr.
  cbn [entry_username]. exact (delete_removes _ _ r Hr).
Qed.

Section Bcrypt.

Variable hashpw : str -> str -> option str.
Variable checkpw : str -> str -> option bool.

(** X16.  [login_form] either leaves the session as it was, or the form
    was submitted with credentials that verify against a stored row of the
    trimmed username, and the session becomes logged in under that row's
    username with the parsed roles of that row, all of them in
    [VALID_ROLES]. *)
Theorem login_form_sound
    (db : database) (st : session_state) (submitted : bool)
    (name password : str) :
  fst (Login.login_form checkpw db st submitted name password) = st
  \/ (submitted = true
      /\ exists r, In r (users db)
           /\ DatabaseManager.username r = strip name
           /\ _verify_password checkpw password (password_hash r) = true
           /\ Login.login_form checkpw db st submitted name password
              = ({| logged_in := true;
                    Session.username := DatabaseManager.username r;
                    roles := _parse_roles (role r) |},
                 Some (Login.success (lit "Login successful.")))
           /\ Forall (fun role => In role VALID_ROLES) (_parse_roles (role r))).
Proof.
  unfold Login.login_form.
  destruct submitted; [|left; reflexivity].
  unfold login_user.
  destruct (is_empty (strip name) || is_empty password); [left; reflexivity|].
  destruct (fetch_one db (SelectUserByUsername (strip name))) as [r|] eqn:F;
    [|left; reflexivity].
  destruct (_verify_password checkpw password (password_hash r)) eqn:V;
    [|left; reflexivity].
  right. split; [reflexivity|].
  destruct (fetch_one_some db _ _ F) as [Hin Hname].
  exists r. repeat split; try assumption. apply parse_roles_valid.
Qed.

(** X17.  An account fresh from [register_user], created on a table where
    AUTOINCREMENT has a rowid left and with a password bcrypt hashes, that
    logs in through [login_form] gets a logged-in session without roles:
    all five page guards stop it with their error message and every
    dashboard card is disabled. *)
Theorem new_account_locked_out
    (db : database) (st : session_state) (username password salt h : str) :
  strip username <> [] -> password <> [] ->
  ~ registered (strip username) db ->
  rowid_available db ->
  hashpw password salt = Some h ->
  checkpw password h = Some true ->
  fst (Login.login_form checkpw
         (fst (register_user hashpw db username password salt))
         st true username password)
    = {| logged_in := true; Session.username := strip username; roles := [] |}
  /\ (forall st', logged_in st' = true -> roles st' = [] ->
        (exists msg, IncidentReporting.guard_page st' = Stop msg)
        /\ (exists msg, DataAnalysis.guard_page st' = Stop msg)
        /\ (exists msg, ITTicketing.guard_page st' = Stop msg)
        /\ (exists msg, AIAssistant.guard_page st' = Stop msg)
        /\ (exists msg, UserManagement.guard_page st' = Stop msg)
        /\ (forall c, In c Dashboard.CARDS -> Dashboard.allowed st' c = false)).
Proof.
  intros Hu Hp Hfresh Hfree Hh Hcheck. split.
  - rewrite (register_user_fresh hashpw db username password salt h
               Hu Hp Hfresh Hfree Hh).
    cbn [fst]. unfold Login.login_form.
    rewrite login_after_insert by exact Hfresh.
    cbn [DatabaseManager.username password_hash role].
    rewrite eqb_refl, (nonempty_fields _ _ Hu Hp).
    unfold _verify_password. rewrite Hcheck. reflexivity.
  - intros st' Hl Hr.
    unfold IncidentReporting.guard_page, DataAnalysis.guard_page,
      ITTicketing.guard_page, AIAssistant.guard_page,
      UserManagement.guard_page, Dashboard.allowed.
    rewrite Hl, Hr. cbn.
    repeat split; try (eexists; reflexivity).
    intros c Hc.
    destruct Hc as [<-|[<-|[<-|[<-|[<-|[<-|[]]]]]]]; reflexivity.
Qed.

End Bcrypt.

(** ** The theorems at the sample sessions *)

Import Samples SampleSessions.

Lemma page_guards_admit_witness :
  DataAnalysis.guard_page analyst_session = Continue
  /\ UserManagement.guard_page anonymous_session
     = SwitchPage (lit "pages/Login.py").
Proof.
  destruct (page_guards_admit analyst_session) as (_ & H2 & _).
  destruct (page_guards_admit anonymous_session) as (_ & _ & _ & _ & _ & H6).
  split.
  - apply H2. split; [reflexivity | right; left; reflexivity].
  - apply (H6 eq_refl).
Defined.

Lemma admin_unlocks_everything_witness :
  logged_in admin_session = true
  /\ In (lit "admin") (roles admin_session)
  /\ IncidentReporting.guard_page admin_session = Continue
  /\ UserManagement.guard_page admin_session = Continue.
Proof.
  assert (Hl : logged_in admin_session = true) by reflexivity.
  assert (Ha : In (lit "admin") (roles admin_session)) by (left; reflexivity).
  destruct (admin_unlocks_everything admin_session Hl Ha)
    as (H1 & _ & _ & _ & H5 & _).
  repeat split; assumption.
Defined.

Lemma card_matches_guard_witness :
  Dashboard.allowed analyst_session
    {| Dashboard.label := lit "Data Analysis";
       Dashboard.page := lit "pages/3_Data_Analysis.py";
       Dashboard.card_roles := [lit "data_analyst"; lit "admin"] |} = true
  <-> DataAnalysis.guard_page analyst_session = Continue.
Proof.
  assert (Hc : In {| Dashboard.label := lit "Data Analysis";
                     Dashboard.page := lit "pages/3_Data_Analysis.py";
                     Dashboard.card_roles := [lit "data_analyst"; lit "admin"] |}
                  Dashboard.CARDS) by (right; left; reflexivity).
  destruct (card_matches_guard analyst_session _ Hc eq_refl) as (_ & H2 & _).
  exact (H2 eq_refl).
Defined.

Lemma technicians_follow_roles_witness :
  registered (lit "alice") alice_db
  /\ In (lit "alice")
        (ITTicketing.get_technicians
           (fst (update_user_roles alice_db (lit "alice")
                   [lit "it_ops"; lit "data_analyst"]))).
Proof.
  split; [exact alice_registered|].
  destruct (technicians_follow_roles alice_db (lit "alice")
              [lit "it_ops"; lit "data_analyst"] alice_registered) as [H _].
  apply H. left. reflexivity.
Defined.

Lemma delete_button_matches_guard_witness :
  UserManagement.disable_delete
    {| entry_id := 1; entry_username := lit "alice";
       entry_role := lit "none"; entry_roles := [] |} = false
  /\ (forall e',
        In e' (get_all_users (fst (delete_user staffed_db (lit "alice")))) ->
        entry_username e' <> lit "alice").
Proof.
  split; [reflexivity|].
  destruct (delete_button_matches_guard staffed_db
              {| entry_id := 1; entry_username := lit "alice";
                 entry_role := lit "none"; entry_roles := [] |}) as [_ H].
  exact (H eq_refl).
Defined.

Lemma new_account_locked_out_witness :
  rowid_available alice_db
  /\ PlainHash.hashpw (lit "pw") (lit "salt")
     = Some (PlainHash.digest (lit "pw") (lit "salt"))
  /\ fst (Login.login_form PlainHash.checkpw
            (fst (register_user PlainHash.hashpw alice_db (lit "bob") (lit "pw")
                    (lit "salt")))
            anonymous_session true (lit "bob") (lit "pw"))
     = {| logged_in := true; Session.username := lit "bob"; roles := [] |}
  /\ (exists msg, DataAnalysis.guard_page newcomer_session = Stop msg).
Proof.
  assert (Hu : strip (lit "bob") <> []) by differs.
  assert (Hp : lit "pw" <> []) by differs.
  assert (Hfresh : ~ registered (strip (lit "bob")) alice_db)
    by (apply AccessControl.alice_db_lacks; reflexivity).
  assert (Hh : PlainHash.hashpw (lit "pw") (lit "salt")
               = Some (PlainHash.digest (lit "pw") (lit "salt")))
    by reflexivity.
  destruct (new_account_locked_out PlainHash.hashpw PlainHash.checkpw alice_db
              anonymous_session (lit "bob") (lit "pw") (lit "salt") _
              Hu Hp Hfresh AccessControl.alice_db_rowid Hh eq_refl)
    as (H1 & H2).
  split; [exact AccessControl.alice_db_rowid|]. split; [exact Hh|].
  split; [exact H1|].
  destruct (H2 newcomer_session eq_refl eq_refl) as (_ & H & _).
  exact H.
Defined.

End PageAccess.
